(** * Tool server of the AI agent: command guard, path guard, executor and
      file operations

    A shallow embedding of the two tool servers of the repository,
    [scr/tool_server.py] (the rich variant, module [ScrToolServer]) and
    [src/tool_server.py] (the simple variant, module [SrcToolServer]),
    together with the parts of the Python runtime they call: [str] methods,
    [shlex.split], [pathlib] and a small model of the host (file system,
    clock, subprocesses).

    Conventions.
    - A Python [str] is a Rocq [string]; a character is a code point below
      256 (ASCII and Latin-1), the range on which [str.lower] is a map on
      single characters.
    - A Python exception is a value of [exn]; code that may raise returns a
      [result], and code that also touches the host is a computation of the
      monad [M] over the state [World].
    - A Python [dict] is an association list in insertion order. *)

From Stdlib Require Import ZArith Ascii String List Bool Lia DecimalString.
From Stdlib Require Import Sorting.Sorted Sorting.Permutation.
From stdpp Require Import base strings list gmap.

Local Open Scope Z_scope.

(** ** Exceptions and results *)

Inductive exn_kind :=
| ValueError
| FileNotFoundError
| FileExistsError
| NotADirectoryError
| IsADirectoryError
| PermissionError
| OSError
| LookupError
| TimeoutExpired.

(** [exn_msg e] is [str(e)]. *)
Record exn := Exn { exn_class : exn_kind; exn_msg : string }.

Inductive result (A : Type) :=
| Ok (a : A)
| Raise (e : exn).
Arguments Ok {A} a.
Arguments Raise {A} e.

(** ** Python strings *)

Module PyStr.

Definition dquote : ascii := "034"%char.
Definition squote : ascii := "039"%char.
Definition backslash : ascii := "092"%char.
Definition slash : ascii := "/"%char.

Definition is_empty (s : string) : bool :=
  match s with EmptyString => true | String _ _ => false end.

(** [s + c] for a one-character string [c]. *)
Definition snoc (s : string) (c : ascii) : string :=
  s +:+ String c EmptyString.

(** [x in l] for a list of strings. *)
Definition str_in (x : string) (l : list string) : bool :=
  existsb (String.eqb x) l.

(** [s.startswith(p)] *)
Fixpoint startswith (s p : string) {struct p} : bool :=
  match p with
  | EmptyString => true
  | String a p' =>
      match s with
      | EmptyString => false
      | String b s' => Ascii.eqb a b && startswith s' p'
      end
  end.

(** [p in s] *)
Fixpoint contains (s p : string) {struct s} : bool :=
  startswith s p ||
  match s with
  | EmptyString => false
  | String _ s' => contains s' p
  end.

(** [c.lower()] on code points below 256: the letters A-Z and the Latin-1
    capitals 192-222 without the multiplication sign 215 move up by 32. *)
Definition lower_char (c : ascii) : ascii :=
  let n := N_of_ascii c in
  if (((65 <=? n) && (n <=? 90)) ||
      ((192 <=? n) && (n <=? 222) && negb (n =? 215)))%N
  then ascii_of_N (n + 32) else c.

(** [s.lower()] *)
Fixpoint lower (s : string) : string :=
  match s with
  | EmptyString => EmptyString
  | String c s' => String (lower_char c) (lower s')
  end.

(** [s.split(sep)] for a one-character separator: never the empty list. *)
Fixpoint split (sep : ascii) (s : string) : list string :=
  match s with
  | EmptyString => [EmptyString]
  | String c s' =>
      if Ascii.eqb c sep then EmptyString :: split sep s'
      else match split sep s' with
           | h :: t => String c h :: t
           | [] => [String c EmptyString]
           end
  end.

(** [l[-1]] on a list of strings that is not empty. *)
Definition last_item (l : list string) : string := List.last l EmptyString.

(** [sep.join(l)] *)
Fixpoint join (sep : string) (l : list string) : string :=
  match l with
  | [] => EmptyString
  | [x] => x
  | x :: rest => x +:+ sep +:+ join sep rest
  end.

(** [s[-n:]] *)
Definition last_chars (n : nat) (s : string) : string :=
  String.substring (String.length s - n) n s.

(** [str(n)] for an integer. *)
Definition str_of_Z (z : Z) : string :=
  DecimalString.NilZero.string_of_int (Z.to_int z).

End PyStr.

(** ** [shlex.split(s)]: POSIX mode, [whitespace_split], no comment
       characters, no punctuation characters *)

Module shlex.
Import PyStr.

(** The lexer's [state]: [' '] between tokens, ['a'] inside a word, a quote
    character inside quotes, the escape character after a backslash. *)
Inductive lexstate :=
| StSpace
| StWord
| StQuote (q : ascii)
| StEscape.

Definition whitespace (c : ascii) : bool :=
  Ascii.eqb c " "%char || Ascii.eqb c "009"%char ||
  Ascii.eqb c "013"%char || Ascii.eqb c "010"%char.
Definition quotes (c : ascii) : bool :=
  Ascii.eqb c squote || Ascii.eqb c dquote.
Definition escape (c : ascii) : bool := Ascii.eqb c backslash.
Definition escapedquotes (c : ascii) : bool := Ascii.eqb c dquote.

(** [read_token] run to the end of the input: [state] is the lexer's
    state, [escapedstate], [quoted] and [token] are the locals of the
    current call of [read_token]; a [break] emits the token and starts the
    next call with fresh locals. A token that is empty and not quoted ends
    the iteration. *)
Fixpoint read_tokens (state escapedstate : lexstate) (quoted : bool)
    (token : string) (instream : string) : result (list string) :=
  let emit rest :=
    match rest with
    | Ok l => Ok (token :: l)
    | Raise e => Raise e
    end in
  match instream with
  | EmptyString =>
      match state with
      | StSpace | StWord =>
          if negb (is_empty token) || quoted then Ok [token] else Ok []
      | StQuote _ => Raise (Exn ValueError "No closing quotation")
      | StEscape => Raise (Exn ValueError "No escaped character")
      end
  | String nextchar rest =>
      match state with
      | StSpace =>
          if whitespace nextchar then
            if negb (is_empty token) || quoted
            then emit (read_tokens StSpace StSpace false EmptyString rest)
            else read_tokens StSpace escapedstate quoted token rest
          else if escape nextchar then
            read_tokens StEscape StWord quoted token rest
          else if quotes nextchar then
            read_tokens (StQuote nextchar) escapedstate quoted token rest
          else
            read_tokens StWord escapedstate quoted
              (String nextchar EmptyString) rest
      | StQuote q =>
          if Ascii.eqb nextchar q then
            read_tokens StWord escapedstate true token rest
          else if escape nextchar && escapedquotes q then
            read_tokens StEscape (StQuote q) true token rest
          else
            read_tokens (StQuote q) escapedstate true (snoc token nextchar)
              rest
      | StEscape =>
          let token' :=
            match escapedstate with
            | StQuote q =>
                if negb (Ascii.eqb nextchar backslash) &&
                   negb (Ascii.eqb nextchar q)
                then snoc token backslash else token
            | _ => token
            end in
          read_tokens escapedstate escapedstate quoted
            (snoc token' nextchar) rest
      | StWord =>
          if whitespace nextchar then
            if negb (is_empty token) || quoted
            then emit (read_tokens StSpace StSpace false EmptyString rest)
            else read_tokens StSpace escapedstate quoted token rest
          else if quotes nextchar then
            read_tokens (StQuote nextchar) escapedstate quoted token rest
          else if escape nextchar then
            read_tokens StEscape StWord quoted token rest
          else
            read_tokens StWord escapedstate quoted (snoc token nextchar)
              rest
      end
  end.

Definition split (s : string) : result (list string) :=
  read_tokens StSpace StSpace false EmptyString s.

End shlex.

(** ** [pathlib]: pure paths (POSIX flavour) *)

Module pathlib.
Import PyStr.

(** A path is its root ([EmptyString] for a relative path, ["/"], or
    ["//"] for exactly two leading slashes) and its components; empty
    components and ["."] are dropped when a path is built, [".."] is kept. *)
Record PurePath := MkPath { root : string; parts : list string }.

Definition is_component (c : string) : bool :=
  negb (is_empty c) && negb (String.eqb c ".").

Definition root_of (s : string) : string :=
  if startswith s "//" && negb (startswith s "///") then "//"
  else if startswith s "/" then "/"
  else EmptyString.

(** [Path(s)] *)
Definition Path (s : string) : PurePath :=
  MkPath (root_of s) (List.filter is_component (split slash s)).

(** [str(p)] *)
Definition str (p : PurePath) : string :=
  match parts p with
  | [] => if is_empty (root p) then "." else root p
  | _ :: _ => root p +:+ join "/" (parts p)
  end.

(** [p.parent] *)
Definition parent (p : PurePath) : PurePath :=
  MkPath (root p) (List.removelast (parts p)).

(** [p.name] *)
Definition name (p : PurePath) : string := last_item (parts p).

(** The entry [n] of the directory [p], as [iterdir] builds it. *)
Definition child (p : PurePath) (n : string) : PurePath :=
  MkPath (root p) (parts p ++ [n]).

Fixpoint strip_prefix (pre l : list string) : option (list string) :=
  match pre with
  | [] => Some l
  | a :: pre' =>
      match l with
      | [] => None
      | b :: l' => if String.eqb a b then strip_prefix pre' l' else None
      end
  end.

(** [p.relative_to(other)] *)
Definition relative_to (p other : PurePath) : result PurePath :=
  let fail :=
    Raise (Exn ValueError
             ("'" +:+ str p +:+ "' is not in the subpath of '" +:+
              str other +:+ "'")) in
  if String.eqb (root p) (root other) then
    match strip_prefix (parts other) (parts p) with
    | Some l => Ok (MkPath EmptyString l)
    | None => fail
    end
  else fail.

End pathlib.

(** ** Python values and dictionaries *)

(** A [float] number of seconds (a reading of the clock, a duration, a
    modification time) is counted in microseconds. *)
#[local] Set Warnings "-register-all".
Inductive pyval :=
| VNone
| VBool (b : bool)
| VInt (z : Z)
| VFloat (us : Z)
| VStr (s : string)
| VBytes (s : string)
| VList (l : list pyval)
| VDict (d : list (string * pyval)).

(** A [dict] literal, keys in the order they are written. *)
Definition dict := list (string * pyval).

(** [d.get(k)] *)
Fixpoint dict_get (k : string) (d : dict) : option pyval :=
  match d with
  | [] => None
  | (k', v) :: d' => if String.eqb k k' then Some v else dict_get k d'
  end.

(** ** The host: file system, clock and subprocesses *)

Record stat_result := MkStat { st_mode : Z; st_size : Z; st_mtime : Z }.

(** A node of the file system: a regular file with its bytes, or a directory
    with the names of its entries in the order the system lists them. An
    entry whose path resolves to no node is a dangling link. *)
Inductive node :=
| File (content : string) (st : stat_result)
| Dir (names : list string) (st : stat_result).

Definition node_stat (n : node) : stat_result :=
  match n with File _ st => st | Dir _ st => st end.

Definition node_is_dir (n : node) : bool :=
  match n with Dir _ _ => true | File _ _ => false end.

(** One call of [subprocess.run]. [run_env_path] is the [PATH] of the [env]
    argument, [None] when the environment is inherited. *)
Record run_call := MkRun {
  run_command : string;
  run_cwd : string;
  run_env_path : option string;
  run_timeout : Z
}.

Inductive run_outcome :=
| Completed (returncode : Z) (stdout stderr : string)
| TimedOut
| RunFailed (e : exn).

(** What the program cannot decide: how the system canonicalises a path
    (symbolic links and the current directory included), which canonical paths
    it refuses to touch, what the clock shows at its k-th reading, how text
    is encoded and decoded, the metadata of a node it creates, what the value
    of [PATH] is, and what a spawned command does. *)
Record Host := MkHost {
  realpath : string -> result string;
  denied : string -> bool;
  clock : nat -> Z;
  encode : string -> string -> result string;
  decode : string -> bool -> string -> result string;
  fresh_stat : bool -> string -> stat_result;
  environ_PATH : option string;
  run_process : run_call -> gmap string node -> run_outcome * gmap string node
}.

(** The state the program changes: the nodes by canonical path, the calls of
    [subprocess.run] made so far, and the number of clock readings. *)
Record World := MkWorld {
  fs : gmap string node;
  run_calls : list run_call;
  ticks : nat
}.

(** ** Computations that may raise and change the world *)

Definition M (A : Type) : Type := World -> result A * World.

Definition ret {A} (a : A) : M A := fun w => (Ok a, w).
Definition raise {A} (e : exn) : M A := fun w => (Raise e, w).
Definition bind {A B} (c : M A) (k : A -> M B) : M B :=
  fun w => match c w with
           | (Ok a, w') => k a w'
           | (Raise e, w') => (Raise e, w')
           end.

(** [try: c except <handled> as e: h e]; an exception that is not handled
    goes on. *)
Definition try_except {A} (c : M A) (handled : exn -> bool) (h : exn -> M A)
  : M A :=
  fun w => match c w with
           | (Ok a, w') => (Ok a, w')
           | (Raise e, w') => if handled e then h e w' else (Raise e, w')
           end.

Definition lift {A} (r : result A) : M A := fun w => (r, w).

Declare Scope py_scope.
Delimit Scope py_scope with py.
Notation "x <- c ;; k" := (bind c (fun x => k))
  (at level 100, c at next level, right associativity) : py_scope.
Notation "c ;;; k" := (bind c (fun _ => k))
  (at level 100, right associativity) : py_scope.
Local Open Scope py_scope.

(** [except Exception] and a bare [except] handle every exception of the
    model. *)
Definition any_exception (e : exn) : bool := true.

Definition is_OSError (e : exn) : bool :=
  match exn_class e with
  | FileNotFoundError | FileExistsError | NotADirectoryError
  | IsADirectoryError | PermissionError | OSError => true
  | ValueError | LookupError | TimeoutExpired => false
  end.

Definition is_FileNotFoundError (e : exn) : bool :=
  match exn_class e with FileNotFoundError => true | _ => false end.

Definition is_TimeoutExpired (e : exn) : bool :=
  match exn_class e with TimeoutExpired => true | _ => false end.

(** ** The calls of [pathlib], [time] and [subprocess] on the host *)

Section HostCalls.
Context (h : Host).
Import PyStr pathlib.

Definition os_error (k : exn_kind) (text : string) (p : PurePath) : exn :=
  Exn k (text +:+ ": '" +:+ str p +:+ "'").

Definition ENOENT := os_error FileNotFoundError
                       "[Errno 2] No such file or directory".
Definition EACCES := os_error PermissionError "[Errno 13] Permission denied".
Definition EEXIST := os_error FileExistsError "[Errno 17] File exists".
Definition ENOTDIR := os_error NotADirectoryError
                        "[Errno 20] Not a directory".
Definition EISDIR := os_error IsADirectoryError "[Errno 21] Is a directory".

(** What the system finds at a path: the path cannot be canonicalised, its
    canonical form is refused, there is nothing there, or there is a node. *)
Inductive located :=
| Broken (e : exn)
| Denied (k : string)
| Missing (k : string)
| Found (k : string) (n : node).

Definition locate (files : gmap string node) (p : PurePath) : located :=
  match realpath h (str p) with
  | Raise e => Broken e
  | Ok k =>
      if denied h k then Denied k
      else match files !! k with
           | Some n => Found k n
           | None => Missing k
           end
  end.

Definition dirname (k : string) : string := str (parent (Path k)).
Definition basename (k : string) : string := name (Path k).

Definition add_name (n : string) (names : list string) : list string :=
  if str_in n names then names else names ++ [n].

(** The directory that would hold a new node at the canonical path [k]:
    its own canonical path and its node, or the error of the system. *)
Definition holder (files : gmap string node) (p : PurePath) (k : string)
  : result (string * list string * stat_result) :=
  let d := dirname k in
  match files !! d with
  | None => Raise (ENOENT p)
  | Some (File _ _) => Raise (ENOTDIR p)
  | Some (Dir names st) =>
      if denied h d then Raise (EACCES p) else Ok (d, names, st)
  end.

Definition set_fs (files : gmap string node) : M unit :=
  fun w => (Ok tt, MkWorld files (run_calls w) (ticks w)).
Definition get_fs : M (gmap string node) := fun w => (Ok (fs w), w).

(** [p.resolve()] *)
Definition Path_resolve (p : PurePath) : M PurePath :=
  match realpath h (str p) with
  | Ok k => ret (Path k)
  | Raise e => raise e
  end.

(** [p.stat()] *)
Definition Path_stat (p : PurePath) : M stat_result :=
  files <- get_fs ;;
  match locate files p with
  | Broken e => raise e
  | Denied _ => raise (EACCES p)
  | Missing _ => raise (ENOENT p)
  | Found _ n => ret (node_stat n)
  end.

(** [p.exists()], [p.is_dir()], [p.is_file()]: a path that is missing or
    cannot be canonicalised gives [False]; a refusal of the system is
    raised. *)
Definition Path_exists (p : PurePath) : M bool :=
  files <- get_fs ;;
  match locate files p with
  | Broken _ | Missing _ => ret false
  | Denied _ => raise (EACCES p)
  | Found _ _ => ret true
  end.

Definition Path_is_dir (p : PurePath) : M bool :=
  files <- get_fs ;;
  match locate files p with
  | Broken _ | Missing _ => ret false
  | Denied _ => raise (EACCES p)
  | Found _ n => ret (node_is_dir n)
  end.

Definition Path_is_file (p : PurePath) : M bool :=
  files <- get_fs ;;
  match locate files p with
  | Broken _ | Missing _ => ret false
  | Denied _ => raise (EACCES p)
  | Found _ n => ret (negb (node_is_dir n))
  end.

(** [os.mkdir(p)] *)
Definition os_mkdir (p : PurePath) : M unit :=
  files <- get_fs ;;
  match locate files p with
  | Broken e => raise e
  | Denied _ => raise (EACCES p)
  | Found _ _ => raise (EEXIST p)
  | Missing k =>
      match holder files p k with
      | Raise e => raise e
      | Ok (d, names, st) =>
          set_fs (<[k := Dir [] (fresh_stat h true k)]>
                    (<[d := Dir (add_name (basename k) names) st]> files))
      end
  end.

(** [p.mkdir(parents=False, exist_ok=True)] *)
Definition Path_mkdir_exist_ok (p : PurePath) : M unit :=
  try_except (os_mkdir p) is_OSError (fun e =>
    if is_FileNotFoundError e then raise e
    else
      d <- Path_is_dir p ;;
      if d then ret tt else raise e).

(** [p.mkdir(parents=True, exist_ok=True)] for the path with root [r] and
    the components [rev rparts]: when the parent is missing it is made
    first, unless the path is its own parent. *)
Fixpoint mkdir_parents (r : string) (rparts : list string) : M unit :=
  let p := MkPath r (rev rparts) in
  try_except (os_mkdir p) is_OSError (fun e =>
    if is_FileNotFoundError e then
      match rparts with
      | [] => raise e
      | _ :: rparts' =>
          mkdir_parents r rparts' ;;;
          Path_mkdir_exist_ok p
      end
    else
      d <- Path_is_dir p ;;
      if d then ret tt else raise e).

Definition Path_mkdir_parents (p : PurePath) : M unit :=
  mkdir_parents (root p) (rev (parts p)).

(** [open(p, 'w')]: the file is created or emptied; the canonical path of
    the open file is returned. *)
Definition open_w (p : PurePath) : M string :=
  files <- get_fs ;;
  match locate files p with
  | Broken e => raise e
  | Denied _ => raise (EACCES p)
  | Found _ (Dir _ _) => raise (EISDIR p)
  | Found k (File _ st) =>
      set_fs (<[k := File EmptyString (MkStat (st_mode st) 0 (st_mtime st))]>
                files) ;;;
      ret k
  | Missing k =>
      match holder files p k with
      | Raise e => raise e
      | Ok (d, names, st) =>
          let st' := fresh_stat h false k in
          set_fs (<[k := File EmptyString
                           (MkStat (st_mode st') 0 (st_mtime st'))]>
                    (<[d := Dir (add_name (basename k) names) st]> files)) ;;;
          ret k
      end
  end.

(** The bytes written to the open file at [k]. *)
Definition write_at (k : string) (bytes : string) : M unit :=
  files <- get_fs ;;
  match files !! k with
  | Some (File _ st) =>
      set_fs (<[k := File bytes
                       (MkStat (st_mode st) (Z.of_nat (String.length bytes))
                               (st_mtime st))]> files)
  | _ => ret tt
  end.

(** [p.write_text(data, encoding=encoding)]: the file is opened first, so an
    encoding error leaves an empty file. On a POSIX system, whose line
    separator is ["\n"], writing in text mode translates no line end. *)
Definition Path_write_text (p : PurePath) (data encoding : string) : M unit :=
  k <- open_w p ;;
  bytes <- lift (encode h encoding data) ;;
  write_at k bytes.

(** [p.write_bytes(data)] *)
Definition Path_write_bytes (p : PurePath) (data : string) : M unit :=
  k <- open_w p ;;
  write_at k data.

(** [p.read_bytes()] *)
Definition Path_read_bytes (p : PurePath) : M string :=
  files <- get_fs ;;
  match locate files p with
  | Broken e => raise e
  | Denied _ => raise (EACCES p)
  | Missing _ => raise (ENOENT p)
  | Found _ (Dir _ _) => raise (EISDIR p)
  | Found _ (File c _) => ret c
  end.

(** The line ends of a text read in text mode ([newline=None]): the decoded
    text has every ["\r\n"] and every other ["\r"] replaced by ["\n"]. *)
Fixpoint universal_newlines (s : string) : string :=
  match s with
  | EmptyString => EmptyString
  | String c s' =>
      if Ascii.eqb c "013"%char then
        match s' with
        | String c' s'' =>
            if Ascii.eqb c' "010"%char
            then String "010" (universal_newlines s'')
            else String "010" (universal_newlines s')
        | EmptyString => String "010" EmptyString
        end
      else String c (universal_newlines s')
  end.

(** [p.read_text(encoding=encoding, errors=...)]; [ignore] is true for
    [errors='ignore']. The file is read in text mode: its bytes are decoded
    and the line ends of the text are translated. *)
Definition Path_read_text (p : PurePath) (encoding : string) (ignore : bool)
  : M string :=
  c <- Path_read_bytes p ;;
  text <- lift (decode h encoding ignore c) ;;
  ret (universal_newlines text).

(** [list(p.iterdir())] *)
Definition Path_iterdir (p : PurePath) : M (list PurePath) :=
  files <- get_fs ;;
  match locate files p with
  | Broken e => raise e
  | Denied _ => raise (EACCES p)
  | Missing _ => raise (ENOENT p)
  | Found _ (File _ _) => raise (ENOTDIR p)
  | Found _ (Dir names _) => ret (List.map (child p) names)
  end.

(** [time.time()] *)
Definition time_time : M Z :=
  fun w => (Ok (clock h (ticks w)), MkWorld (fs w) (run_calls w) (S (ticks w))).

(** [subprocess.run(command, shell=True, cwd=..., env=..., timeout=...)]:
    the call is recorded; the result is the return code, [stdout] and
    [stderr]. *)
Definition subprocess_run (c : run_call) : M (Z * string * string) :=
  fun w =>
    let '(out, files) := run_process h c (fs w) in
    let w' := MkWorld files (run_calls w ++ [c]) (ticks w) in
    match out with
    | Completed rc so se => (Ok (rc, so, se), w')
    | TimedOut =>
        (Raise (Exn TimeoutExpired
                  ("Command '" +:+ run_command c +:+ "' timed out after " +:+
                   str_of_Z (run_timeout c) +:+ " seconds")), w')
    | RunFailed e => (Raise e, w')
    end.

End HostCalls.

(** ** Builtins used by both servers *)

Module builtins.
Import PyStr.

(** [a or b] for an optional integer: [None] and [0] are false. *)
Definition or_int (a : option Z) (b : Z) : Z :=
  match a with
  | Some z => if z =? 0 then b else z
  | None => b
  end.

(** The string [s] when [if s:] holds for an optional string. *)
Definition truthy (s : option string) : option string :=
  match s with
  | Some x => if is_empty x then None else Some x
  | None => None
  end.

Definition oct_digit (n : N) : ascii := ascii_of_N (48 + n).

Fixpoint oct_go (fuel : nat) (n : N) (acc : string) : string :=
  match fuel with
  | O => acc
  | S fuel' =>
      if (n =? 0)%N then acc
      else oct_go fuel' (n / 8)%N (String (oct_digit (n mod 8)%N) acc)
  end.

(** [oct(z)] *)
Definition oct (z : Z) : string :=
  let n := Z.to_N (Z.abs z) in
  let digits := if (n =? 0)%N then "0"
                else oct_go (N.size_nat n) n EmptyString in
  (if z <? 0 then "-0o" else "0o") +:+ digits.

Definition len (s : string) : Z := Z.of_nat (String.length s).

(** Insertion of [x] before the first element that is not below it. The
    elements are inserted from the last to the first, so equal keys keep their
    order: the sort is stable, like [sorted]. *)
Fixpoint insert_sorted {A} (le : A -> A -> bool) (x : A) (l : list A)
  : list A :=
  match l with
  | [] => [x]
  | y :: l' => if le x y then x :: y :: l'
               else y :: insert_sorted le x l'
  end.

(** [sorted(l, key=...)], with [le a b] the comparison [key(a) <= key(b)]. *)
Definition sorted {A} (le : A -> A -> bool) (l : list A) : list A :=
  List.fold_right (insert_sorted le) [] l.

End builtins.

(** ** [scr/tool_server.py] *)

Module ScrToolServer.
Import PyStr pathlib builtins.

Record ToolServer := MkToolServer {
  workspace_dir : PurePath;
  allowed_commands : list string;
  restricted_paths : list string;
  timeout : Z;
  max_file_size : Z
}.

Definition default_allowed_commands : list string :=
  ["ls"; "cd"; "pwd"; "cat"; "grep"; "find"; "mkdir"; "touch";
   "cp"; "mv"; "rm"; "chmod"; "chown"; "python"; "python3";
   "pip"; "git"; "docker"; "npm"; "node"; "echo"; "curl"; "wget";
   "ssh"; "scp"; "rsync"; "tar"; "zip"; "unzip"; "df"; "du";
   "head"; "tail"; "wc"; "sort"; "uniq"; "diff"; "patch"].

Definition default_restricted_paths : list string :=
  ["/etc"; "/root"; "/boot"; "/proc"; "/sys";
   "/var/lib"; "/usr/lib"; "/lib"; "/bin"; "/sbin"].

(** The object [__init__] builds, without the directory it makes. *)
Definition new (workspace : string) (allowed : option (list string))
    (timeout : Z) : ToolServer :=
  {| workspace_dir := Path workspace;
     allowed_commands :=
       match allowed with
       | Some (c :: l) => c :: l
       | _ => default_allowed_commands
       end;
     restricted_paths := default_restricted_paths;
     timeout := timeout;
     max_file_size := 10 * 1024 * 1024 |}.

Definition dangerous_patterns : list string :=
  ["rm -rf /"; "mkfs"; "dd"; "> /dev/sda"; "chmod 777 /";
   ":(){ :|:& };:"; "fork()"; "exec("; "system(";
   "shutdown"; "reboot"; "halt"; "poweroff"].

Definition is_safe_command (self : ToolServer) (command : string)
  : bool * string :=
  match shlex.split command with
  | Raise e => (false, "Command parsing error: " +:+ exn_msg e)
  | Ok [] => (false, "Empty command")
  | Ok (first :: _) =>
      let base_cmd := last_item (split slash first) in
      if negb (str_in base_cmd (allowed_commands self)) then
        (false, "Command '" +:+ base_cmd +:+ "' not in allowed list")
      else
        let cmd_lower := lower command in
        match List.find (fun pattern => contains cmd_lower pattern)
                        dangerous_patterns with
        | Some pattern =>
            (false, "Command contains dangerous pattern: " +:+ pattern)
        | None =>
            if contains command ".." &&
               existsb (fun x => contains command x) ["/etc"; "/root"; "/boot"]
            then (false, "Path traversal attempt detected")
            else (true, "OK")
        end
  end.

Section WithHost.
Context (h : Host).

(** [__init__] *)
Definition init (workspace : string) (allowed : option (list string))
    (timeout : Z) : M ToolServer :=
  let self := new workspace allowed timeout in
  Path_mkdir_parents h (workspace_dir self) ;;;
  ret self.

Definition is_safe_path (self : ToolServer) (path : string)
  : bool * string :=
  match realpath h (str (Path path)) with
  | Raise e => (false, "Path validation error: " +:+ exn_msg e)
  | Ok k =>
      let resolved := str (Path k) in
      match List.find (fun restricted => startswith resolved restricted)
                      (restricted_paths self) with
      | Some restricted =>
          (false, "Path is in restricted area: " +:+ restricted)
      | None =>
          if contains resolved ".." &&
             negb (startswith resolved (str (workspace_dir self)))
          then (false, "Path traversal outside workspace")
          else if negb (startswith resolved (str (workspace_dir self)))
          then (false, "Can only write to workspace")
          else (true, "OK")
      end
  end.

Definition env_PATH : string :=
  "/usr/local/sbin:/usr/local/bin:/usr/sbin:/usr/bin:/sbin:/bin:" +:+
  match environ_PATH h with Some v => v | None => EmptyString end.

Definition execute (self : ToolServer) (command : string)
    (working_dir : option string) (timeout_arg : option Z) : M dict :=
  start_time <- time_time h ;;
  let '(is_safe, message) := is_safe_command self command in
  if negb is_safe then
    now <- time_time h ;;
    ret [("success", VBool false);
         ("stdout", VStr EmptyString);
         ("stderr", VStr ("Security violation: " +:+ message));
         ("return_code", VInt 1);
         ("execution_time", VFloat (now - start_time))]
  else
    let run (cwd : PurePath) : M dict :=
      try_except
        (res <- subprocess_run h
                  (MkRun command (str cwd) (Some env_PATH)
                         (or_int timeout_arg (timeout self))) ;;
         let '(returncode, stdout, stderr) := res in
         now <- time_time h ;;
         ret [("success", VBool (returncode =? 0));
              ("stdout", VStr stdout);
              ("stderr", VStr stderr);
              ("return_code", VInt returncode);
              ("execution_time", VFloat (now - start_time));
              ("working_dir", VStr (str cwd))])
        any_exception
        (fun e =>
           now <- time_time h ;;
           if is_TimeoutExpired e then
             ret [("success", VBool false);
                  ("stdout", VStr EmptyString);
                  ("stderr", VStr ("Command timed out after " +:+
                                   str_of_Z (or_int timeout_arg (timeout self))
                                   +:+ " seconds"));
                  ("return_code", VInt (-1));
                  ("execution_time", VFloat (now - start_time))]
           else
             ret [("success", VBool false);
                  ("stdout", VStr EmptyString);
                  ("stderr", VStr ("Execution error: " +:+ exn_msg e));
                  ("return_code", VInt (-1));
                  ("execution_time", VFloat (now - start_time))]) in
    match truthy working_dir with
    | None => run (workspace_dir self)
    | Some wd =>
        let '(safe, msg) := is_safe_path self wd in
        if safe then
          let cwd := Path wd in
          Path_mkdir_parents h cwd ;;;
          run cwd
        else
          now <- time_time h ;;
          ret [("success", VBool false);
               ("stdout", VStr EmptyString);
               ("stderr", VStr ("Invalid working directory: " +:+ msg));
               ("return_code", VInt 1);
               ("execution_time", VFloat (now - start_time))]
    end.

Definition read_file (self : ToolServer) (path : string)
    (encoding : string) : M dict :=
  try_except
    (let '(safe, message) := is_safe_path self path in
     if negb safe then
       ret [("success", VBool false); ("error", VStr message);
            ("content", VStr EmptyString)]
     else
       let file_path := Path path in
       there <- Path_exists h file_path ;;
       if negb there then
         ret [("success", VBool false); ("error", VStr "File not found");
              ("content", VStr EmptyString)]
       else
         st <- Path_stat h file_path ;;
         if st_size st >? max_file_size self then
           st' <- Path_stat h file_path ;;
           ret [("success", VBool false);
                ("error", VStr ("File too large (" +:+
                                str_of_Z (st_size st') +:+ " > " +:+
                                str_of_Z (max_file_size self) +:+ ")"));
                ("content", VStr EmptyString)]
         else
           try_except
             (content <- Path_read_text h file_path encoding true ;;
              ret [("success", VBool true);
                   ("content", VStr content);
                   ("size", VInt (len content));
                   ("is_binary", VBool false);
                   ("encoding", VStr encoding)])
             any_exception
             (fun _ =>
                content <- Path_read_bytes h file_path ;;
                ret [("success", VBool true);
                     ("content", VBytes content);
                     ("size", VInt (len content));
                     ("is_binary", VBool true);
                     ("encoding", VStr "binary")]))
    any_exception
    (fun e =>
       ret [("success", VBool false); ("error", VStr (exn_msg e));
            ("content", VStr EmptyString)]).

(** The [content] argument of [write_file]: a [str] or [bytes]. *)
Inductive content_arg :=
| Text (s : string)
| Bytes (b : string).

Definition content_len (c : content_arg) : Z :=
  match c with Text s => len s | Bytes b => len b end.

Definition write_file (self : ToolServer) (path : string)
    (content : content_arg) (encoding : string) : M dict :=
  try_except
    (let '(safe, message) := is_safe_path self path in
     if negb safe then
       ret [("success", VBool false); ("error", VStr message)]
     else
       let file_path := Path path in
       Path_mkdir_parents h (parent file_path) ;;;
       if content_len content >? max_file_size self then
         ret [("success", VBool false);
              ("error", VStr ("Content too large (" +:+
                              str_of_Z (content_len content) +:+ " > " +:+
                              str_of_Z (max_file_size self) +:+ ")"))]
       else
         match content with
         | Text s => Path_write_text h file_path s encoding
         | Bytes b => Path_write_bytes h file_path b
         end ;;;
         there <- Path_exists h file_path ;;
         ret [("success", VBool true);
              ("path", VStr (str file_path));
              ("size", VInt (content_len content));
              ("created", VBool (negb there))])
    any_exception
    (fun e => ret [("success", VBool false); ("error", VStr (exn_msg e))]).

(** The dictionary of one entry of a listing. *)
Definition entry_of (self : ToolServer) (item : PurePath) : M dict :=
  stat <- Path_stat h item ;;
  is_dir <- Path_is_dir h item ;;
  is_file <- Path_is_file h item ;;
  rel <- lift (relative_to item (workspace_dir self)) ;;
  ret [("name", VStr (name item));
       ("type", VStr (if is_dir then "directory" else "file"));
       ("size", VInt (if is_file then st_size stat else 0));
       ("modified", VFloat (st_mtime stat));
       ("permissions", VStr (last_chars 3 (oct (st_mode stat))));
       ("path", VStr (str rel))].

(** The loop over [iterdir()]: an entry whose dictionary cannot be built
    is skipped. *)
Fixpoint collect (self : ToolServer) (items : list PurePath)
  : M (list dict) :=
  match items with
  | [] => ret []
  | item :: rest =>
      r <- try_except (e <- entry_of self item ;; ret (Some e))
                      any_exception (fun _ => ret None) ;;
      files <- collect self rest ;;
      ret (match r with Some e => e :: files | None => files end)
  end.

(** The sort key [(x["type"] == "directory", x["name"])]. *)
Definition entry_is_directory (x : dict) : bool :=
  match dict_get "type" x with
  | Some (VStr t) => String.eqb t "directory"
  | _ => false
  end.

Definition entry_name (x : dict) : string :=
  match dict_get "name" x with
  | Some (VStr n) => n
  | _ => EmptyString
  end.

(** [key(a) <= key(b)] on pairs of a boolean and a string: [False] is
    below [True], strings compare by code points. *)
Definition key_le (a b : dict) : bool :=
  match entry_is_directory a, entry_is_directory b with
  | false, true => true
  | true, false => false
  | _, _ => String.leb (entry_name a) (entry_name b)
  end.

Definition list_directory (self : ToolServer) (path : option string)
  : M dict :=
  try_except
    (let listing (target_dir : PurePath) : M dict :=
       there <- Path_exists h target_dir ;;
       if negb there then
         ret [("success", VBool false);
              ("error", VStr "Directory not found"); ("files", VList [])]
       else
         is_dir <- Path_is_dir h target_dir ;;
         if negb is_dir then
           ret [("success", VBool false);
                ("error", VStr "Not a directory"); ("files", VList [])]
         else
           items <- Path_iterdir h target_dir ;;
           files <- collect self items ;;
           ret [("success", VBool true);
                ("path", VStr (str target_dir));
                ("files", VList (List.map VDict (sorted key_le files)));
                ("count", VInt (Z.of_nat (List.length files)))] in
     match truthy path with
     | None => listing (workspace_dir self)
     | Some p =>
         let '(safe, message) := is_safe_path self p in
         if negb safe then
           ret [("success", VBool false); ("error", VStr message);
                ("files", VList [])]
         else listing (Path p)
     end)
    any_exception
    (fun e =>
       ret [("success", VBool false); ("error", VStr (exn_msg e));
            ("files", VList [])]).

End WithHost.
End ScrToolServer.

(** ** [src/tool_server.py] *)

Module SrcToolServer.
Import PyStr pathlib builtins.

Record ToolServer := MkToolServer {
  workspace_dir : string;
  allowed_commands : list string;
  timeout : Z
}.

Definition default_allowed_commands : list string :=
  ["ls"; "cd"; "pwd"; "cat"; "grep"; "find"; "mkdir"; "touch";
   "cp"; "mv"; "rm"; "chmod"; "chown"; "python"; "python3";
   "pip"; "git"; "docker"; "npm"; "node"; "echo"; "curl"; "wget"].

(** [__init__] *)
Definition new (workspace : string) (allowed : option (list string))
    (timeout : Z) : ToolServer :=
  {| workspace_dir := workspace;
     allowed_commands :=
       match allowed with
       | Some (c :: l) => c :: l
       | _ => default_allowed_commands
       end;
     timeout := timeout |}.

Definition dangerous_patterns : list string :=
  ["rm -rf /"; "mkfs"; "dd"; "> /dev/sda";
   ":(){ :|:& };:"; "chmod 777 /"].

Definition _is_safe_command (self : ToolServer) (command : string) : bool :=
  match shlex.split command with
  | Raise _ => false
  | Ok [] => false
  | Ok (first :: _) =>
      let base_cmd := last_item (split slash first) in
      if negb (str_in base_cmd (allowed_commands self)) then false
      else
        let cmd_lower := lower command in
        match List.find (fun pattern => contains cmd_lower pattern)
                        dangerous_patterns with
        | Some _ => false
        | None => true
        end
  end.

(** The encoding of a call without an [encoding] argument. *)
Definition locale_encoding : string := "locale".

Section WithHost.
Context (h : Host).

Definition execute (self : ToolServer) (command : string)
    (working_dir : option string) (timeout_arg : option Z) : M dict :=
  start_time <- time_time h ;;
  if negb (_is_safe_command self command) then
    ret [("success", VBool false);
         ("stdout", VStr EmptyString);
         ("stderr", VStr "Command not allowed");
         ("return_code", VInt (-1));
         ("execution_time", VInt 0)]
  else
    let cwd := match truthy working_dir with
               | Some wd => wd
               | None => workspace_dir self
               end in
    Path_mkdir_parents h (Path cwd) ;;;
    try_except
      (res <- subprocess_run h
                (MkRun command cwd None (or_int timeout_arg (timeout self))) ;;
       let '(returncode, stdout, stderr) := res in
       now <- time_time h ;;
       ret [("success", VBool (returncode =? 0));
            ("stdout", VStr stdout);
            ("stderr", VStr stderr);
            ("return_code", VInt returncode);
            ("execution_time", VFloat (now - start_time))])
      any_exception
      (fun e =>
         now <- time_time h ;;
         if is_TimeoutExpired e then
           ret [("success", VBool false);
                ("stdout", VStr EmptyString);
                ("stderr", VStr ("Command timed out after " +:+
                                 str_of_Z (or_int timeout_arg (timeout self))
                                 +:+ "s"));
                ("return_code", VInt (-1));
                ("execution_time", VFloat (now - start_time))]
         else
           ret [("success", VBool false);
                ("stdout", VStr EmptyString);
                ("stderr", VStr (exn_msg e));
                ("return_code", VInt (-1));
                ("execution_time", VFloat (now - start_time))]).

(** The dictionary of one entry when [read_file] lists a directory. *)
Definition entry_of (f : PurePath) : M pyval :=
  is_dir <- Path_is_dir h f ;;
  is_file <- Path_is_file h f ;;
  size <- (if is_file then st <- Path_stat h f ;; ret (st_size st)
           else ret 0) ;;
  ret (VDict [("name", VStr (name f));
              ("type", VStr (if is_dir then "directory" else "file"));
              ("size", VInt size)]).

Fixpoint entries (items : list PurePath) : M (list pyval) :=
  match items with
  | [] => ret []
  | f :: rest =>
      e <- entry_of f ;;
      files <- entries rest ;;
      ret (e :: files)
  end.

Definition read_file (self : ToolServer) (path : string) : M dict :=
  safe_path <- Path_resolve h (Path path) ;;
  if contains (str safe_path) ".." then
    ret [("error", VStr "Path traversal not allowed")]
  else
    there <- Path_exists h safe_path ;;
    if negb there then ret [("error", VStr "File not found")]
    else
      is_dir <- Path_is_dir h safe_path ;;
      if is_dir then
        items <- Path_iterdir h safe_path ;;
        files <- entries items ;;
        ret [("path", VStr (str safe_path)); ("files", VList files)]
      else
        try_except
          (content <- Path_read_text h safe_path locale_encoding false ;;
           ret [("path", VStr (str safe_path));
                ("content", VStr content);
                ("size", VInt (len content))])
          any_exception
          (fun e => ret [("error", VStr ("Cannot read file: " +:+ exn_msg e))]).

Definition write_file (self : ToolServer) (path : string) (content : string)
  : M dict :=
  safe_path <- Path_resolve h (Path path) ;;
  workspace <- Path_resolve h (Path (workspace_dir self)) ;;
  if negb (startswith (str safe_path) (str workspace)) then
    ret [("error", VStr "Can only write to workspace")]
  else
    Path_mkdir_parents h (parent safe_path) ;;;
    try_except
      (Path_write_text h safe_path content locale_encoding ;;;
       ret [("success", VBool true); ("path", VStr (str safe_path))])
      any_exception
      (fun e => ret [("error", VStr ("Cannot write file: " +:+ exn_msg e))]).

End WithHost.
End SrcToolServer.

(** ** A host without symbolic links *)

Module LexicalHost.
Import PyStr pathlib.

(** The components of a canonical path: [".."] removes the component before
    it, and stays at the root. *)
Fixpoint normalise (acc : list string) (comps : list string) : list string :=
  match comps with
  | [] => rev acc
  | c :: rest =>
      if String.eqb c ".."
      then normalise (List.tl acc) rest
      else normalise (c :: acc) rest
  end.

(** [os.path.realpath] where no path is a symbolic link and the current
    directory is [cwd]. *)
Definition lexical_realpath (cwd : string) (s : string) : result string :=
  let p := Path s in
  let comps := if is_empty (root p) then parts (Path cwd) ++ parts p
               else parts p in
  Ok ("/" +:+ join "/" (normalise [] comps)).

(** The host: the clock ticks once a reading, text is stored as it is, and a
    spawned command exits with code 0 and changes nothing. *)
Definition host (cwd : string) : Host :=
  {| realpath := lexical_realpath cwd;
     denied := fun _ => false;
     clock := fun n => Z.of_nat n;
     encode := fun _ s => Ok s;
     decode := fun _ _ s => Ok s;
     fresh_stat := fun is_dir _ =>
                     if is_dir then MkStat 16877 4096 0 else MkStat 33188 0 0;
     environ_PATH := Some "/usr/bin:/bin";
     run_process := fun _ files => (Completed 0 EmptyString EmptyString, files)
  |}.

Definition dir_stat : stat_result := MkStat 16877 4096 0.
Definition file_stat (size : Z) : stat_result := MkStat 33188 size 0.

Definition world (files : list (string * node)) : World :=
  MkWorld (list_to_map files) [] 0.

End LexicalHost.

(** ** Notions used by the statements *)

(** The base command of a first token: the part after its last slash. *)
Definition base_cmd_of (first : string) : string :=
  PyStr.last_item (PyStr.split PyStr.slash first).

(** The first dangerous pattern, in the order of the list, that the command
    contains once it is in lower case. *)
Definition first_match (patterns : list string) (command : string)
  : option string :=
  List.find (fun pattern => PyStr.contains (PyStr.lower command) pattern)
            patterns.

(** [k] is the directory [d] or lies below it: the components of [d] begin
    those of [k]. *)
Definition under_dir (d k : string) : bool :=
  String.eqb (pathlib.root (pathlib.Path d)) (pathlib.root (pathlib.Path k)) &&
  match pathlib.strip_prefix (pathlib.parts (pathlib.Path d))
                             (pathlib.parts (pathlib.Path k)) with
  | Some _ => true
  | None => false
  end.

(** The two file systems hold the same regular files with the same bytes. *)
Definition same_files (f1 f2 : gmap string node) : Prop :=
  forall k c st, f1 !! k = Some (File c st) <-> f2 !! k = Some (File c st).

(** From [w] to [w'] no regular file was made, changed or removed and no
    process was run. *)
Definition only_dirs_made (w w' : World) : Prop :=
  same_files (fs w) (fs w') /\ run_calls w' = run_calls w.

(** Every run of [c] takes a world to one that is related to it by [R]. *)
Definition keeps (R : World -> World -> Prop) {A} (c : M A) : Prop :=
  forall w, R w (snd (c w)).

(** The dictionary of a directory entry in the world [w], when it can be
    built. *)
Definition entry_outcome (h : Host) (ts : ScrToolServer.ToolServer)
    (w : World) (item : pathlib.PurePath) : option dict :=
  match fst (ScrToolServer.entry_of h ts item w) with
  | Ok e => Some e
  | Raise _ => None
  end.

(** The dictionaries of the entries that can be built, in the order of the
    entries. *)
Definition kept_entries (h : Host) (ts : ScrToolServer.ToolServer)
    (w : World) (items : list pathlib.PurePath) : list dict :=
  omap (entry_outcome h ts w) items.

(** The directory that [list_directory] lists for its argument, when the
    path guard lets it through. *)
Definition listing_target (h : Host) (ts : ScrToolServer.ToolServer)
    (path : option string) : option pathlib.PurePath :=
  match builtins.truthy path with
  | None => Some (ScrToolServer.workspace_dir ts)
  | Some p =>
      if fst (ScrToolServer.is_safe_path h ts p) then Some (pathlib.Path p)
      else None
  end.



(** The string of [n] characters [c]. *)
Fixpoint repeat_char (n : nat) (c : ascii) : string :=
  match n with
  | O => EmptyString
  | S n' => String c (repeat_char n' c)
  end.

(** A content of 10 MB and one character. *)
Definition big_content : string := repeat_char (Z.to_nat 10485761) "x".

(** ** More calls on the host: removing files and directories *)

Section RemovalCalls.
Context (h : Host).
Import PyStr pathlib.

(** [os.path.islink(p)]: the last component of the path is a symbolic link.
    The nodes of the world are kept by canonical path and the links are part
    of the host's [realpath]; no call of the servers makes a link. *)
Context (islink : PurePath -> bool).

(** [os.unlink(p)] for a symbolic link [p]: the link goes and its target
    stays, which changes what paths through the link lead to; the world has
    no node for a link, so the call is left to the host. *)
Context (unlink_link : PurePath -> M unit).

Definition ENOTEMPTY := os_error OSError "[Errno 39] Directory not empty".
Definition EBUSY := os_error OSError "[Errno 16] Device or resource busy".

(** The names of a directory without the entry [n]. *)
Definition remove_name (n : string) (names : list string) : list string :=
  List.filter (fun x => negb (String.eqb x n)) names.

(** [p.unlink()]: the last component of the path is not followed, so for a
    symbolic link it is the link that is removed; otherwise the file at the
    canonical path is. *)
Definition Path_unlink (p : PurePath) : M unit :=
  if islink p then unlink_link p
  else
    files <- get_fs ;;
    match locate h files p with
    | Broken e => raise e
    | Denied _ => raise (EACCES p)
    | Missing _ => raise (ENOENT p)
    | Found _ (Dir _ _) => raise (EISDIR p)
    | Found k (File _ _) =>
        match holder h files p k with
        | Raise e => raise e
        | Ok (d, names, st) =>
            set_fs (delete k
                      (<[d := Dir (remove_name (basename k) names) st]> files))
        end
    end.

(** [p.rmdir()]: only an empty directory is removed, and never the root; a
    symbolic link is not a directory, whatever it leads to. *)
Definition Path_rmdir (p : PurePath) : M unit :=
  if islink p then raise (ENOTDIR p)
  else
    files <- get_fs ;;
    match locate h files p with
    | Broken e => raise e
    | Denied _ => raise (EACCES p)
    | Missing _ => raise (ENOENT p)
    | Found _ (File _ _) => raise (ENOTDIR p)
    | Found _ (Dir (_ :: _) _) => raise (ENOTEMPTY p)
    | Found k (Dir [] _) =>
        if String.eqb (dirname k) k then raise (EBUSY p)
        else
          match holder h files p k with
          | Raise e => raise e
          | Ok (d, names, st) =>
              set_fs (delete k
                        (<[d := Dir (remove_name (basename k) names) st]>
                           files))
          end
    end.

End RemovalCalls.

(** ** [scr/tool_server.py]: making, deleting and searching *)

Module ScrFileOps.
Import PyStr pathlib builtins ScrToolServer.

(** [p == q] on paths. *)
Definition path_eqb (p q : PurePath) : bool :=
  String.eqb (root p) (root q) &&
  bool_decide (parts p = parts q).

Section WithHost.
Context (h : Host).

(** [shutil.rmtree(p)], which the server calls and does not define. *)
Context (rmtree : PurePath -> M unit).

(** The symbolic links of the host, as [Path_unlink] and [Path_rmdir] take
    them. *)
Context (islink : PurePath -> bool) (unlink_link : PurePath -> M unit).

(** [target.rglob(pattern)] for [recursive] true and [target.glob(pattern)]
    for false, as the list of the paths they yield. *)
Context (glob : bool -> PurePath -> string -> M (list PurePath)).

Definition create_directory (self : ToolServer) (path : string) : M dict :=
  try_except
    (let '(safe, message) := is_safe_path h self path in
     if negb safe then
       ret [("success", VBool false); ("error", VStr message)]
     else
       let dir_path := Path path in
       Path_mkdir_parents h dir_path ;;;
       ret [("success", VBool true);
            ("path", VStr (str dir_path));
            ("created", VBool true);
            ("message", VStr ("Directory created: " +:+ path))])
    any_exception
    (fun e => ret [("success", VBool false); ("error", VStr (exn_msg e))]).

Definition delete_path (self : ToolServer) (path : string) (recursive : bool)
  : M dict :=
  try_except
    (let '(safe, message) := is_safe_path h self path in
     if negb safe then
       ret [("success", VBool false); ("error", VStr message)]
     else
       let target_path := Path path in
       there <- Path_exists h target_path ;;
       if negb there then
         ret [("success", VBool false); ("error", VStr "Path not found")]
       else
         resolved <- Path_resolve h target_path ;;
         workspace <- Path_resolve h (workspace_dir self) ;;
         if path_eqb resolved workspace then
           ret [("success", VBool false);
                ("error", VStr "Cannot delete workspace root")]
         else
           is_dir <- Path_is_dir h target_path ;;
           (if is_dir then
              if recursive then rmtree target_path
              else Path_rmdir h islink target_path
            else Path_unlink h islink unlink_link target_path) ;;;
           ret [("success", VBool true);
                ("path", VStr (str target_path));
                ("deleted", VBool true);
                ("message", VStr ("Deleted: " +:+ path))])
    any_exception
    (fun e => ret [("success", VBool false); ("error", VStr (exn_msg e))]).

(** The dictionary of one search result, [None] for a path that is not a
    regular file. *)
Definition result_of (self : ToolServer) (file_path : PurePath)
  : M (option dict) :=
  is_file <- Path_is_file h file_path ;;
  if is_file then
    stat <- Path_stat h file_path ;;
    rel <- lift (relative_to file_path (workspace_dir self)) ;;
    ret (Some [("path", VStr (str rel));
               ("name", VStr (name file_path));
               ("size", VInt (st_size stat));
               ("modified", VFloat (st_mtime stat));
               ("absolute_path", VStr (str file_path))])
  else ret None.

(** The loop over the matches: a match that is not a regular file, or whose
    dictionary cannot be built, is left out. *)
Fixpoint collect_results (self : ToolServer) (items : list PurePath)
  : M (list dict) :=
  match items with
  | [] => ret []
  | file_path :: rest =>
      r <- try_except (result_of self file_path)
                      any_exception (fun _ => ret None) ;;
      results <- collect_results self rest ;;
      ret (match r with Some e => e :: results | None => results end)
  end.

Definition result_path (x : dict) : string :=
  match dict_get "path" x with
  | Some (VStr p) => p
  | _ => EmptyString
  end.

(** [key(a) <= key(b)] for the key [x["path"]]. *)
Definition path_le (a b : dict) : bool :=
  String.leb (result_path a) (result_path b).

Definition search_files (self : ToolServer) (pattern : string)
    (directory : option string) (recursive : bool) : M dict :=
  try_except
    (let search (search_dir : PurePath) : M dict :=
       there <- Path_exists h search_dir ;;
       if negb there then
         ret [("success", VBool false);
              ("error", VStr "Directory not found"); ("results", VList [])]
       else
         items <- glob recursive search_dir pattern ;;
         results <- collect_results self items ;;
         ret [("success", VBool true);
              ("pattern", VStr pattern);
              ("directory", VStr (str search_dir));
              ("recursive", VBool recursive);
              ("results", VList (List.map VDict (sorted path_le results)));
              ("count", VInt (Z.of_nat (List.length results)))] in
     match truthy directory with
     | None => search (workspace_dir self)
     | Some dir =>
         let '(safe, message) := is_safe_path h self dir in
         if negb safe then
           ret [("success", VBool false); ("error", VStr message);
                ("results", VList [])]
         else search (Path dir)
     end)
    any_exception
    (fun e =>
       ret [("success", VBool false); ("error", VStr (exn_msg e));
            ("results", VList [])]).

End WithHost.
End ScrFileOps.

(** ** [src/tool_server.py]: the class [DockerAIAgent] *)

Module DockerAIAgent.
Import PyStr builtins.

Section WithHost.
Context (h : Host).

(** The call of [subprocess.run] without a working directory and with the
    inherited environment: [run_cwd] is empty. *)
Definition execute_safe (command : string) : M dict :=
  try_except
    (res <- subprocess_run h (MkRun command EmptyString None 30) ;;
     let '(returncode, stdout, stderr) := res in
     ret [("success", VBool (returncode =? 0));
          ("stdout", VStr stdout);
          ("stderr", VStr stderr);
          ("return_code", VInt returncode)])
    any_exception
    (fun e =>
       if is_TimeoutExpired e then
         ret [("success", VBool false); ("stdout", VStr EmptyString);
              ("stderr", VStr "Command timed out"); ("return_code", VInt (-1))]
       else
         ret [("success", VBool false); ("stdout", VStr EmptyString);
              ("stderr", VStr (exn_msg e)); ("return_code", VInt (-1))]).

Definition execute_in_container (command : string) (container : option string)
  : M dict :=
  match truthy container with
  | Some c => execute_safe ("docker exec " +:+ c +:+ " " +:+ command)
  | None => execute_safe command
  end.

End WithHost.
End DockerAIAgent.

(** ** More notions used by the statements *)

(** The two file systems hold the same regular files, the path [k] apart. *)
Definition same_files_but (k : string) (f1 f2 : gmap string node) : Prop :=
  forall k' c st, k' <> k ->
    (f1 !! k' = Some (File c st) <-> f2 !! k' = Some (File c st)).

(** From [w] to [w'] no regular file other than the one at [k] was made,
    changed or removed and no process was run. *)
Definition only_file_touched (k : string) (w w' : World) : Prop :=
  same_files_but k (fs w) (fs w') /\ run_calls w' = run_calls w.

(** A host whose text encoding takes two bytes for a character. *)
Fixpoint widen (s : string) : string :=
  match s with
  | EmptyString => EmptyString
  | String c s' => String c (String "000" (widen s'))
  end.

Fixpoint narrow (s : string) : string :=
  match s with
  | String c (String _ s') => String c (narrow s')
  | _ => EmptyString
  end.

Definition wide_host : Host :=
  {| realpath := realpath (LexicalHost.host "/");
     denied := denied (LexicalHost.host "/");
     clock := clock (LexicalHost.host "/");
     encode := fun _ s => Ok (widen s);
     decode := fun _ _ s => Ok (narrow s);
     fresh_stat := fresh_stat (LexicalHost.host "/");
     environ_PATH := environ_PATH (LexicalHost.host "/");
     run_process := run_process (LexicalHost.host "/") |}.

(** Every character of the string is a whitespace character of [shlex]. *)
Fixpoint all_whitespace (s : string) : bool :=
  match s with
  | EmptyString => true
  | String c s' => shlex.whitespace c && all_whitespace s'
  end.

(** A host on which every spawned command runs into its timeout. *)
Definition slow_host : Host :=
  {| realpath := realpath (LexicalHost.host "/");
     denied := denied (LexicalHost.host "/");
     clock := clock (LexicalHost.host "/");
     encode := encode (LexicalHost.host "/");
     decode := decode (LexicalHost.host "/");
     fresh_stat := fresh_stat (LexicalHost.host "/");
     environ_PATH := environ_PATH (LexicalHost.host "/");
     run_process := fun _ files => (TimedOut, files) |}.

(** A small world for the examples: the workspace [/workspace] with a file,
    a longer file and a subdirectory, and a file outside of it. *)
Definition demo_world : World :=
  LexicalHost.world
    [("/", Dir ["workspace"; "etc"] LexicalHost.dir_stat);
     ("/workspace", Dir ["notes.txt"; "big.txt"; "sub"] LexicalHost.dir_stat);
     ("/workspace/notes.txt", File "hello" (LexicalHost.file_stat 5));
     ("/workspace/big.txt", File "too long" (LexicalHost.file_stat 8));
     ("/workspace/sub", Dir ["inner.txt"] LexicalHost.dir_stat);
     ("/workspace/sub/inner.txt", File "in" (LexicalHost.file_stat 2));
     ("/etc", Dir ["passwd"] LexicalHost.dir_stat);
     ("/etc/passwd", File "root:x" (LexicalHost.file_stat 6))].

(** The rich server of the examples, with the size limit [limit]. *)
Definition demo_server (limit : Z) : ScrToolServer.ToolServer :=
  ScrToolServer.MkToolServer (pathlib.Path "/workspace")
    ScrToolServer.default_allowed_commands
    ScrToolServer.default_restricted_paths 30 limit.

(** In the world [w] the path [p] leads to a directory that the system does
    not refuse. *)
Definition is_directory (h : Host) (w : World) (p : pathlib.PurePath) : Prop :=
  exists k names st, locate h (fs w) p = Found k (Dir names st).

(** The dictionary of a search result in the world [w], when the match is a
    regular file and the dictionary can be built. *)
Definition result_outcome (h : Host) (ts : ScrToolServer.ToolServer)
    (w : World) (item : pathlib.PurePath) : option dict :=
  match fst (ScrFileOps.result_of h ts item w) with
  | Ok r => r
  | Raise _ => None
  end.

Definition kept_results (h : Host) (ts : ScrToolServer.ToolServer)
    (w : World) (items : list pathlib.PurePath) : list dict :=
  omap (result_outcome h ts w) items.

(** The directory that [search_files] searches for its argument, when the
    path guard lets it through. *)
Definition search_target (h : Host) (ts : ScrToolServer.ToolServer)
    (directory : option string) : option pathlib.PurePath :=
  match builtins.truthy directory with
  | None => Some (ScrToolServer.workspace_dir ts)
  | Some p =>
      if fst (ScrToolServer.is_safe_path h ts p) then Some (pathlib.Path p)
      else None
  end.


(** A [glob] for the examples: every pattern matches the entries of the
    directory itself. *)
Definition entries_glob (h : Host) (recursive : bool)
    (p : pathlib.PurePath) (pattern : string) : M (list pathlib.PurePath) :=
  Path_iterdir h p.

(** A host without symbolic links, and the removal of a link for it: there
    is no link to remove. *)
Definition no_links (p : pathlib.PurePath) : bool := false.

Definition no_unlink_link (p : pathlib.PurePath) : M unit :=
  raise (ENOENT p).

(** An [rmtree] for the examples: it refuses every tree. *)
Definition no_rmtree (p : pathlib.PurePath) : M unit :=
  raise (Exn PermissionError "rmtree refused").

(** * Properties *)

(** ** The runtime model on examples *)

Example shlex_words :
  shlex.split "git status; rm -rf /" = Ok ["git"; "status;"; "rm"; "-rf"; "/"].
Proof. reflexivity. Qed.

Example shlex_quotes :
  shlex.split "echo 'a b'  c\ d" = Ok ["echo"; "a b"; "c d"].
Proof. reflexivity. Qed.

Example shlex_unbalanced :
  shlex.split "echo 'a b" = Raise (Exn ValueError "No closing quotation").
Proof. reflexivity. Qed.

Example lower_example : PyStr.lower "Git ADD; RM -RF /" = "git add; rm -rf /".
Proof. reflexivity. Qed.

Example oct_example : PyStr.last_chars 3 (builtins.oct 33188) = "644".
Proof. reflexivity. Qed.

Example path_str_example :
  pathlib.str (pathlib.Path "/workspace//a/./b/") = "/workspace/a/b".
Proof. reflexivity. Qed.

Example realpath_example :
  LexicalHost.lexical_realpath "/" "/workspace/../etc/passwd"
  = Ok "/etc/passwd".
Proof. reflexivity. Qed.

Example sorted_stable :
  builtins.sorted (fun a b => Nat.leb (fst a) (fst b))
    [(2, "a"); (1, "b"); (2, "c"); (1, "d")]%nat
  = [(1, "b"); (1, "d"); (2, "a"); (2, "c")]%nat.
Proof. reflexivity. Qed.

(** ** Strings *)

Section StringFacts.
Import PyStr.

Lemma startswith_app (p b : string) : startswith (p +:+ b) p = true.
Proof.
  induction p as [|a p IH]; simpl; [reflexivity|].
  rewrite Ascii.eqb_refl. exact IH.
Qed.

Lemma startswith_inv (s p : string) :
  startswith s p = true -> exists b, s = p +:+ b.
Proof.
  revert s. induction p as [|a p IH]; intros s H; simpl in *.
  - exists s. reflexivity.
  - destruct s as [|c s]; [discriminate|].
    apply andb_prop in H as [Hc Hs].
    apply Ascii.eqb_eq in Hc. subst c.
    destruct (IH _ Hs) as [b ->]. exists b. reflexivity.
Qed.

(** [contains s p] is [p in s]: [p] occurs in [s] between some [a] and [b]. *)
Lemma contains_spec (s p : string) :
  contains s p = true <-> exists a b, s = a +:+ p +:+ b.
Proof.
  split.
  - induction s as [|c s IH]; simpl; intros H.
    + apply orb_prop in H as [H|H]; [|discriminate].
      destruct (startswith_inv _ _ H) as [b Hb].
      exists EmptyString, b. exact Hb.
    + apply orb_prop in H as [H|H].
      * destruct (startswith_inv _ _ H) as [b Hb].
        exists EmptyString, b. exact Hb.
      * destruct (IH H) as (a & b & ->).
        exists (String c a), b. reflexivity.
  - intros (a & b & ->). induction a as [|c a IH].
    + change (EmptyString +:+ p +:+ b) with (p +:+ b).
      destruct (p +:+ b) eqn:E; simpl; rewrite <- E, startswith_app;
        reflexivity.
    + change (String c a +:+ p +:+ b) with (String c (a +:+ p +:+ b)).
      simpl. rewrite IH. apply orb_true_r.
Qed.

Lemma str_in_spec (x : string) (l : list string) :
  str_in x l = true <-> In x l.
Proof.
  unfold str_in. rewrite existsb_exists. split.
  - intros (y & Hy & E). apply String.eqb_eq in E. subst. exact Hy.
  - intros H. exists x. split; [exact H | apply String.eqb_refl].
Qed.

End StringFacts.

(** ** The command guard *)

Section CommandGuard.
Import PyStr.

Lemma first_match_some (patterns : list string) (command p : string) :
  In p patterns -> contains (lower command) p = true ->
  exists q, first_match patterns command = Some q /\ In q patterns /\
            contains (lower command) q = true.
Proof.
  intros Hin Hc. unfold first_match.
  destruct (List.find _ patterns) as [q|] eqn:E.
  - exists q. apply List.find_some in E as [? ?]. auto.
  - exfalso. eapply List.find_none in E; [|exact Hin].
    simpl in E. congruence.
Qed.

(** A command with a dangerous pattern is never safe for the rich server. *)
Lemma scr_pattern_unsafe (ts : ScrToolServer.ToolServer) (command p : string) :
  In p ScrToolServer.dangerous_patterns ->
  contains (lower command) p = true ->
  fst (ScrToolServer.is_safe_command ts command) = false.
Proof.
  intros Hin Hc. unfold ScrToolServer.is_safe_command.
  destruct (shlex.split command) as [[|first rest]|e]; try reflexivity.
  destruct (negb _); [reflexivity|].
  destruct (first_match_some _ _ _ Hin Hc) as (q & Hq & _).
  unfold first_match in Hq. rewrite Hq. reflexivity.
Qed.

(** When the command splits and its base command is allowed, the reason
    names the first pattern that matches. *)
Lemma scr_pattern_reason (ts : ScrToolServer.ToolServer)
    (command p first : string) (rest : list string) :
  In p ScrToolServer.dangerous_patterns ->
  contains (lower command) p = true ->
  shlex.split command = Ok (first :: rest) ->
  str_in (base_cmd_of first) (ScrToolServer.allowed_commands ts) = true ->
  exists q,
    first_match ScrToolServer.dangerous_patterns command = Some q /\
    In q ScrToolServer.dangerous_patterns /\
    contains (lower command) q = true /\
    ScrToolServer.is_safe_command ts command
    = (false, "Command contains dangerous pattern: " +:+ q).
Proof.
  intros Hin Hc Hs Ha.
  destruct (first_match_some _ _ _ Hin Hc) as (q & Hq & Hqin & Hqc).
  exists q. repeat split; try assumption.
  unfold ScrToolServer.is_safe_command. rewrite Hs.
  fold (base_cmd_of first). rewrite Ha. simpl negb. cbv iota.
  unfold first_match in Hq. rewrite Hq. reflexivity.
Qed.

Lemma src_pattern_unsafe (ts : SrcToolServer.ToolServer) (command p : string) :
  In p SrcToolServer.dangerous_patterns ->
  contains (lower command) p = true ->
  SrcToolServer._is_safe_command ts command = false.
Proof.
  intros Hin Hc. unfold SrcToolServer._is_safe_command.
  destruct (shlex.split command) as [[|first rest]|e]; try reflexivity.
  destruct (negb _); [reflexivity|].
  destruct (first_match_some _ _ _ Hin Hc) as (q & Hq & _).
  unfold first_match in Hq. rewrite Hq. reflexivity.
Qed.

End CommandGuard.

(** C2, as stated: every command that contains a dangerous pattern is
    rejected with a reason that names a pattern it contains. It fails: the
    allow-list is checked first, so ["sudo dd if=/dev/zero of=/dev/sdb"] is
    rejected with the reason ["Command 'sudo' not in allowed list"], which
    names no pattern of the command. *)
Lemma C2_reason_names_the_command :
  ~ (forall (ts : ScrToolServer.ToolServer) (command p : string),
       In p ScrToolServer.dangerous_patterns ->
       PyStr.contains (PyStr.lower command) p = true ->
       fst (ScrToolServer.is_safe_command ts command) = false /\
       exists q, In q ScrToolServer.dangerous_patterns /\
                 PyStr.contains (PyStr.lower command) q = true /\
                 PyStr.contains (snd (ScrToolServer.is_safe_command ts command))
                                q = true).
Proof.
  intros H.
  destruct (H (ScrToolServer.new "/workspace" None 30)
              "sudo dd if=/dev/zero of=/dev/sdb" "dd")
    as (_ & q & Hin & Hc & Hr).
  - simpl. tauto.
  - reflexivity.
  - simpl in Hin.
    repeat (destruct Hin as [<-|Hin]; [vm_compute in Hc, Hr; discriminate|]).
    exact Hin.
Qed.

(** C2, amended: a command that contains a dangerous pattern of a server, in
    any letter case, is never safe for that server; for the rich server the
    reason names the first matching pattern of the list whenever the command
    splits into tokens and its base command is allowed. *)
Theorem C2_dangerous_pattern_rejected
    (ts : ScrToolServer.ToolServer) (ts' : SrcToolServer.ToolServer)
    (command : string) :
  (forall p, In p ScrToolServer.dangerous_patterns ->
             PyStr.contains (PyStr.lower command) p = true ->
     fst (ScrToolServer.is_safe_command ts command) = false /\
     forall first rest,
       shlex.split command = Ok (first :: rest) ->
       PyStr.str_in (base_cmd_of first) (ScrToolServer.allowed_commands ts)
       = true ->
       exists q,
         first_match ScrToolServer.dangerous_patterns command = Some q /\
         In q ScrToolServer.dangerous_patterns /\
         PyStr.contains (PyStr.lower command) q = true /\
         ScrToolServer.is_safe_command ts command
         = (false, "Command contains dangerous pattern: " +:+ q)) /\
  (forall p, In p SrcToolServer.dangerous_patterns ->
             PyStr.contains (PyStr.lower command) p = true ->
     SrcToolServer._is_safe_command ts' command = false).
Proof.
  split.
  - intros p Hin Hc. split.
    + eapply scr_pattern_unsafe; eassumption.
    + intros first rest Hs Ha. eapply scr_pattern_reason; eassumption.
  - intros p Hin Hc. eapply src_pattern_unsafe; eassumption.
Qed.

Lemma C2_dangerous_pattern_rejected_witness :
  ScrToolServer.is_safe_command (ScrToolServer.new "/workspace" None 30)
    "git status; RM -rf /"
  = (false, "Command contains dangerous pattern: rm -rf /") /\
  SrcToolServer._is_safe_command (SrcToolServer.new "/workspace" None 30)
    "git status; RM -rf /" = false.
Proof.
  destruct (C2_dangerous_pattern_rejected
              (ScrToolServer.new "/workspace" None 30)
              (SrcToolServer.new "/workspace" None 30)
              "git status; RM -rf /") as [H1 H2].
  split.
  - destruct (H1 "rm -rf /") as [_ H]; [simpl; tauto | reflexivity |].
    destruct (H "git" ["status;"; "RM"; "-rf"; "/"] eq_refl eq_refl)
      as (q & Hq & _ & _ & Hr).
    vm_compute in Hq. injection Hq as <-. exact Hr.
  - apply (H2 "rm -rf /"); [simpl; tauto | reflexivity].
Defined.

(** The spec's example: the allowed [git] does not save a chained
    [rm -rf /]. *)
Example C2_git_status_rm :
  ScrToolServer.is_safe_command (ScrToolServer.new "/workspace" None 30)
    "git status; rm -rf /"
  = (false, "Command contains dangerous pattern: rm -rf /").
Proof. reflexivity. Qed.



(** C8: ["git add notes.txt"] splits into [git], [add] and [notes.txt]; its
    base command [git] is allowed by default and the only dangerous pattern
    it contains is ["dd"], inside the word [add]; both servers reject it,
    the rich one with the reason that names ["dd"]. *)
Theorem C8_git_add_rejected (workspace : string) (timeout : Z) :
  let command := "git add notes.txt" in
  shlex.split command = Ok ["git"; "add"; "notes.txt"] /\
  PyStr.str_in "git" ScrToolServer.default_allowed_commands = true /\
  PyStr.str_in "git" SrcToolServer.default_allowed_commands = true /\
  List.filter (fun p => PyStr.contains (PyStr.lower command) p)
              ScrToolServer.dangerous_patterns = ["dd"] /\
  PyStr.contains "add" "dd" = true /\
  ScrToolServer.is_safe_command (ScrToolServer.new workspace None timeout)
    command
  = (false, "Command contains dangerous pattern: dd") /\
  SrcToolServer._is_safe_command (SrcToolServer.new workspace None timeout)
    command = false.
Proof. repeat split; reflexivity. Qed.

(** ** Sorting *)

Section Sorting.
Context {A : Type} (le : A -> A -> bool).
Hypothesis le_total : forall a b, le a b = true \/ le b a = true.
Hypothesis le_trans : forall a b c,
  le a b = true -> le b c = true -> le a c = true.

Lemma insert_sorted_perm (x : A) (l : list A) :
  Permutation (x :: l) (builtins.insert_sorted le x l).
Proof.
  induction l as [|y l IH]; simpl; [reflexivity|].
  destruct (le x y); [reflexivity|].
  rewrite perm_swap. constructor. exact IH.
Qed.

Lemma sorted_perm (l : list A) : Permutation l (builtins.sorted le l).
Proof.
  induction l as [|x l IH]; simpl; [reflexivity|].
  rewrite <- insert_sorted_perm. constructor. exact IH.
Qed.

Lemma insert_sorted_ordered (x : A) (l : list A) :
  StronglySorted (fun a b => le a b = true) l ->
  StronglySorted (fun a b => le a b = true) (builtins.insert_sorted le x l).
Proof.
  induction 1 as [|y l Hs IH Hy]; simpl.
  - constructor; constructor.
  - destruct (le x y) eqn:E.
    + constructor; [constructor; assumption|].
      constructor; [exact E|].
      eapply List.Forall_impl; [|exact Hy].
      intros z Hz. eapply le_trans; eassumption.
    + constructor; [exact IH|].
      eapply Permutation_Forall; [apply insert_sorted_perm|].
      constructor; [|exact Hy].
      destruct (le_total x y) as [H|H]; congruence.
Qed.

Lemma sorted_ordered (l : list A) :
  StronglySorted (fun a b => le a b = true) (builtins.sorted le l).
Proof.
  induction l as [|x l IH]; simpl; [constructor|].
  apply insert_sorted_ordered. exact IH.
Qed.

End Sorting.

(** In a strongly sorted list an element is related to every later one. *)
Lemma StronglySorted_lookup {A} (R : A -> A -> Prop) (l : list A) :
  StronglySorted R l ->
  forall (i j : nat) (a b : A),
    (i < j)%nat -> l !! i = Some a -> l !! j = Some b -> R a b.
Proof.
  induction 1 as [|x l Hs IH Hx]; intros i j a b Hij Ha Hb.
  - discriminate.
  - destruct j as [|j]; [lia|]. simpl in Hb.
    destruct i as [|i]; simpl in Ha.
    + injection Ha as <-. rewrite List.Forall_forall in Hx.
      apply Hx. apply list_elem_of_In. eapply list_elem_of_lookup_2. exact Hb.
    + eapply IH; [|eassumption..]. lia.
Qed.

(** ** The sort key of a listing *)


Lemma leb_trans (a b c : string) :
  String.leb a b = true -> String.leb b c = true -> String.leb a c = true.
Proof.
  intros H1 H2. apply Is_true_true.
  apply Is_true_true in H1, H2.
  exact (transitivity (R := strings.String.le) H1 H2).
Qed.



(** ** Computations and the worlds they reach *)

Section Keeps.
Context (R : World -> World -> Prop) `{!PreOrder R}.

Lemma keeps_ret {A} (a : A) : keeps R (ret a).
Proof. intros w. simpl. reflexivity. Qed.

Lemma keeps_raise {A} (e : exn) : keeps R (@raise A e).
Proof. intros w. simpl. reflexivity. Qed.

Lemma keeps_lift {A} (r : result A) : keeps R (lift r).
Proof. intros w. simpl. reflexivity. Qed.

Lemma keeps_bind {A B} (c : M A) (k : A -> M B) :
  keeps R c -> (forall a, keeps R (k a)) -> keeps R (bind c k).
Proof.
  intros Hc Hk w. unfold bind.
  specialize (Hc w). destruct (c w) as [[a|e] w1]; simpl in *.
  - etransitivity; [exact Hc | apply Hk].
  - exact Hc.
Qed.

Lemma keeps_try {A} (c : M A) (handled : exn -> bool) (hd : exn -> M A) :
  keeps R c -> (forall e, keeps R (hd e)) ->
  keeps R (try_except c handled hd).
Proof.
  intros Hc Hh w. unfold try_except.
  specialize (Hc w). destruct (c w) as [[a|e] w1]; simpl in *.
  - exact Hc.
  - destruct (handled e); simpl; [|exact Hc].
    etransitivity; [exact Hc | apply Hh].
Qed.

(** A computation that reads the file system and goes on. *)
Lemma keeps_get_fs {A} (k : gmap string node -> M A) :
  (forall w, R w (snd (k (fs w) w))) -> keeps R (bind get_fs k).
Proof. intros Hk w. unfold bind, get_fs. apply Hk. Qed.

End Keeps.

#[local] Instance eq_world_preorder : PreOrder (@eq World).
Proof. split; [intros x; reflexivity | intros x y z -> ->; reflexivity]. Qed.

#[local] Instance same_files_preorder : PreOrder same_files.
Proof.
  split.
  - intros f k c st. reflexivity.
  - intros f g i Hfg Hgi k c st. rewrite (Hfg k c st). apply Hgi.
Qed.

#[local] Instance only_dirs_made_preorder : PreOrder only_dirs_made.
Proof.
  split.
  - intros w. split; reflexivity.
  - intros w1 w2 w3 [H1 E1] [H2 E2]. split.
    + etransitivity; eassumption.
    + congruence.
Qed.

(** ** Calls that only read *)

Section ReadOnly.
Context (h : Host).

Ltac read_only :=
  intros w; unfold bind, get_fs; simpl;
  repeat match goal with
         | |- context [match ?x with _ => _ end] => destruct x; simpl
         end; reflexivity.

Lemma Path_stat_reads p : keeps eq (Path_stat h p).
Proof. unfold Path_stat. read_only. Qed.

Lemma Path_exists_reads p : keeps eq (Path_exists h p).
Proof. unfold Path_exists. read_only. Qed.

Lemma Path_is_dir_reads p : keeps eq (Path_is_dir h p).
Proof. unfold Path_is_dir. read_only. Qed.

Lemma Path_is_file_reads p : keeps eq (Path_is_file h p).
Proof. unfold Path_is_file. read_only. Qed.

Lemma Path_iterdir_reads p : keeps eq (Path_iterdir h p).
Proof. unfold Path_iterdir. read_only. Qed.

Lemma entry_of_reads ts item : keeps eq (ScrToolServer.entry_of h ts item).
Proof.
  unfold ScrToolServer.entry_of.
  apply keeps_bind; [apply _ | apply Path_stat_reads | intros st].
  apply keeps_bind; [apply _ | apply Path_is_dir_reads | intros d].
  apply keeps_bind; [apply _ | apply Path_is_file_reads | intros f].
  apply keeps_bind; [apply _ | apply keeps_lift; apply _ | intros rel].
  apply keeps_ret; apply _.
Qed.

(** The loop of [list_directory] returns the dictionaries that can be built
    and leaves the world as it is. *)
Lemma collect_kept ts items w :
  ScrToolServer.collect h ts items w = (Ok (kept_entries h ts w items), w).
Proof.
  induction items as [|item rest IH]; [reflexivity|].
  simpl. unfold bind at 1, try_except, bind at 1.
  unfold kept_entries. simpl. unfold entry_outcome at 1.
  pose proof (entry_of_reads ts item w) as Hw.
  destruct (ScrToolServer.entry_of h ts item w) as [[e|e] w1];
    simpl in *; subst w1; unfold bind; rewrite IH; reflexivity.
Qed.

End ReadOnly.

(** ** Making directories *)

Section Mkdir.
Context (h : Host).

Lemma locate_missing files p k :
  locate h files p = Missing k -> files !! k = None.
Proof.
  unfold locate. destruct (realpath h _); [|discriminate].
  destruct (denied h a); [discriminate|].
  destruct (files !! a) eqn:E; [discriminate|].
  intros [= <-]. exact E.
Qed.

Lemma locate_found files p k n :
  locate h files p = Found k n ->
  realpath h (pathlib.str p) = Ok k /\ denied h k = false /\
  files !! k = Some n.
Proof.
  unfold locate. destruct (realpath h _); [|discriminate].
  destruct (denied h a) eqn:D; [discriminate|].
  destruct (files !! a) eqn:E; [|discriminate].
  intros [= <- <-]. auto.
Qed.

Lemma holder_dir files p k d names st :
  holder h files p k = Ok (d, names, st) -> files !! d = Some (Dir names st).
Proof.
  unfold holder. destruct (files !! dirname k) as [[c s|ns s]|] eqn:E;
    try discriminate.
  destruct (denied h _); [discriminate|].
  intros [= <- <- <-]. exact E.
Qed.

(** A new directory in a directory: the regular files stay as they are. *)
Lemma same_files_mkdir files k d names names' st st' :
  files !! k = None -> files !! d = Some (Dir names st) ->
  same_files files (<[k := Dir [] st']> (<[d := Dir names' st]> files)).
Proof.
  intros Hk Hd x c s.
  destruct (decide (k = x)) as [<-|Hkx].
  - rewrite lookup_insert_eq, Hk. split; discriminate.
  - rewrite lookup_insert_ne by exact Hkx.
    destruct (decide (d = x)) as [<-|Hdx].
    + rewrite lookup_insert_eq, Hd. split; discriminate.
    + rewrite lookup_insert_ne by exact Hdx. reflexivity.
Qed.

Lemma os_mkdir_only_dirs p : keeps only_dirs_made (os_mkdir h p).
Proof.
  intros w. unfold os_mkdir, bind, get_fs.
  destruct (locate h (fs w) p) as [e|k|k|k n] eqn:L; simpl;
    try reflexivity.
  destruct (holder h (fs w) p k) as [[[d names] st]|e] eqn:Hh; simpl;
    [|reflexivity].
  split; [|reflexivity]. simpl.
  eapply same_files_mkdir.
  - eapply locate_missing; eassumption.
  - eapply holder_dir; eassumption.
Qed.

Lemma keeps_eq_weaken (R : World -> World -> Prop) `{!PreOrder R}
    {A} (c : M A) :
  keeps eq c -> keeps R c.
Proof. intros H w. rewrite <- (H w). reflexivity. Qed.

Lemma Path_mkdir_exist_ok_only_dirs p :
  keeps only_dirs_made (Path_mkdir_exist_ok h p).
Proof.
  unfold Path_mkdir_exist_ok.
  apply keeps_try; [apply _ | apply os_mkdir_only_dirs | intros e].
  destruct (is_FileNotFoundError e); [apply keeps_raise; apply _|].
  apply keeps_bind; [apply _ | | intros []; [apply keeps_ret|apply keeps_raise];
                                 apply _].
  apply keeps_eq_weaken; [apply _ | apply Path_is_dir_reads].
Qed.

Lemma mkdir_parents_only_dirs r rparts :
  keeps only_dirs_made (mkdir_parents h r rparts).
Proof.
  induction rparts as [|c rparts IH]; simpl.
  - apply keeps_try; [apply _ | apply os_mkdir_only_dirs | intros e].
    destruct (is_FileNotFoundError e); [apply keeps_raise; apply _|].
    apply keeps_bind; [apply _ | | intros []; [apply keeps_ret|apply keeps_raise];
                                   apply _].
    apply keeps_eq_weaken; [apply _ | apply Path_is_dir_reads].
  - apply keeps_try; [apply _ | apply os_mkdir_only_dirs | intros e].
    destruct (is_FileNotFoundError e).
    + apply keeps_bind; [apply _ | exact IH | intros _].
      apply Path_mkdir_exist_ok_only_dirs.
    + apply keeps_bind; [apply _ | | intros []; [apply keeps_ret|apply keeps_raise];
                                     apply _].
      apply keeps_eq_weaken; [apply _ | apply Path_is_dir_reads].
Qed.

Lemma Path_mkdir_parents_only_dirs p :
  keeps only_dirs_made (Path_mkdir_parents h p).
Proof. apply mkdir_parents_only_dirs. Qed.

End Mkdir.

(** ** Writing a file *)

Section Writing.
Context (h : Host).

(** After [open(p, 'w')] the path resolves to a regular file that the system
    does not refuse. *)
Lemma open_w_file p k w w1 :
  open_w h p w = (Ok k, w1) ->
  realpath h (pathlib.str p) = Ok k /\ denied h k = false /\
  exists c st, fs w1 !! k = Some (File c st).
Proof.
  unfold open_w, bind, get_fs.
  destruct (locate h (fs w) p) as [e|k'|k'|k' [c st|ns st]] eqn:L; simpl;
    try discriminate.
  - destruct (holder h (fs w) p k') as [[[d names] st]|e] eqn:Hh; simpl;
      [|discriminate].
    intros [= <- <-]. simpl.
    unfold locate in L. destruct (realpath h _) as [k0|]; [|discriminate].
    destruct (denied h k0) eqn:D; [discriminate|].
    destruct (fs w !! k0); [discriminate|]. injection L as ->.
    repeat split; try assumption.
    eexists _, _. apply lookup_insert_eq.
  - intros [= <- <-]. simpl.
    apply locate_found in L as (Hr & Hd & _).
    repeat split; try assumption.
    eexists _, _. apply lookup_insert_eq.
Qed.

Lemma write_at_file k bytes w w1 r :
  (exists c st, fs w !! k = Some (File c st)) ->
  write_at k bytes w = (r, w1) ->
  exists st, fs w1 !! k = Some (File bytes st).
Proof.
  intros (c & st & Hk). unfold write_at, bind, get_fs. rewrite Hk. simpl.
  intros [= <- <-]. simpl. eexists. apply lookup_insert_eq.
Qed.

Lemma exists_after_file p k w c st :
  realpath h (pathlib.str p) = Ok k -> denied h k = false ->
  fs w !! k = Some (File c st) ->
  Path_exists h p w = (Ok true, w).
Proof.
  intros Hr Hd Hk. unfold Path_exists, bind, get_fs, locate.
  rewrite Hr, Hd, Hk. reflexivity.
Qed.

(** A file that was written exists. *)
Lemma write_text_exists p data encoding w w1 :
  Path_write_text h p data encoding w = (Ok tt, w1) ->
  Path_exists h p w1 = (Ok true, w1).
Proof.
  unfold Path_write_text. unfold bind at 1.
  destruct (open_w h p w) as [[k|e] w2] eqn:Ho; [|discriminate].
  apply open_w_file in Ho as (Hr & Hd & Hf).
  unfold bind, lift. destruct (encode h encoding data) as [bytes|e];
    [|discriminate].
  intros Hw. destruct (write_at_file _ _ _ _ _ Hf Hw) as [st Hst].
  eapply exists_after_file; eassumption.
Qed.

Lemma write_bytes_exists p data w w1 :
  Path_write_bytes h p data w = (Ok tt, w1) ->
  Path_exists h p w1 = (Ok true, w1).
Proof.
  unfold Path_write_bytes. unfold bind at 1.
  destruct (open_w h p w) as [[k|e] w2] eqn:Ho; [|discriminate].
  apply open_w_file in Ho as (Hr & Hd & Hf).
  intros Hw. destruct (write_at_file _ _ _ _ _ Hf Hw) as [st Hst].
  eapply exists_after_file; eassumption.
Qed.

End Writing.

(** ** [write_file] of the rich server *)

Lemma length_repeat_char (n : nat) (c : ascii) :
  String.length (repeat_char n c) = n.
Proof. induction n; simpl; congruence. Qed.

Lemma big_content_len : builtins.len big_content = 10485761.
Proof.
  unfold builtins.len, big_content. rewrite length_repeat_char.
  apply Z2Nat.id. lia.
Qed.

(** The simple server has no limit on the size: in a workspace that exists
    it writes any content. *)
Lemma src_write_file_any_content (content : string) :
  let h := LexicalHost.host "/" in
  let w := LexicalHost.world
             [("/", Dir ["workspace"] LexicalHost.dir_stat);
              ("/workspace", Dir [] LexicalHost.dir_stat)] in
  let r := SrcToolServer.write_file h (SrcToolServer.new "/workspace" None 30)
             "/workspace/big.txt" content w in
  fst r = Ok [("success", VBool true); ("path", VStr "/workspace/big.txt")] /\
  fs (snd r) !! "/workspace/big.txt"
  = Some (File content (MkStat 33188 (builtins.len content) 0)).
Proof. vm_compute. split; reflexivity. Qed.

(** C7, as stated: a [write_file] whose content is longer than the maximum
    file size (10 MB, the [max_file_size] of the rich server) is rejected. It
    fails for the simple server, which has no check of the size: it writes a
    content of 10485761 characters and answers with [success] true. *)
Lemma C7_src_writes_oversized_content :
  ~ (forall (h : Host) (ts : SrcToolServer.ToolServer) (path content : string)
            (w : World),
       builtins.len content
       > ScrToolServer.max_file_size (ScrToolServer.new "/workspace" None 30) ->
       exists d w',
         SrcToolServer.write_file h ts path content w = (Ok d, w') /\
         dict_get "success" d <> Some (VBool true)).
Proof.
  intros H.
  destruct (H (LexicalHost.host "/") (SrcToolServer.new "/workspace" None 30)
              "/workspace/big.txt" big_content
              (LexicalHost.world
                 [("/", Dir ["workspace"] LexicalHost.dir_stat);
                  ("/workspace", Dir [] LexicalHost.dir_stat)]))
    as (d & w' & Hrun & Hs).
  - rewrite big_content_len. reflexivity.
  - destruct (src_write_file_any_content big_content) as [Hr _].
    rewrite Hrun in Hr. simpl in Hr. injection Hr as ->. apply Hs. reflexivity.
Qed.

(** C7, amended: in the rich server, when the length of the content exceeds
    [max_file_size], [write_file] returns a result with [success] false, and
    on the way no regular file was made, changed or removed (only missing
    parent directories may have been made) and no process was run; so no file
    is left at the target path. *)
Theorem C7_oversized_write_rejected (h : Host)
    (ts : ScrToolServer.ToolServer) (path : string)
    (content : ScrToolServer.content_arg) (encoding : string) (w : World) :
  ScrToolServer.content_len content > ScrToolServer.max_file_size ts ->
  exists d w',
    ScrToolServer.write_file h ts path content encoding w = (Ok d, w') /\
    dict_get "success" d = Some (VBool false) /\
    only_dirs_made w w' /\
    forall k c st, fs w' !! k = Some (File c st) ->
                   fs w !! k = Some (File c st).
Proof.
  intros Hlen.
  assert (Hgt : (ScrToolServer.content_len content
                 >? ScrToolServer.max_file_size ts) = true)
    by (apply Z.gtb_lt; lia).
  unfold ScrToolServer.write_file, try_except.
  destruct (ScrToolServer.is_safe_path h ts path) as [[|] message]; simpl.
  - unfold bind.
    pose proof (Path_mkdir_parents_only_dirs h
                  (pathlib.parent (pathlib.Path path)) w) as Hk.
    destruct (Path_mkdir_parents h _ w) as [[[]|e] w1]; simpl in *.
    + rewrite Hgt. simpl. eexists _, _. split; [reflexivity|].
      split; [reflexivity|]. split; [exact Hk|].
      intros k c st. apply (proj1 Hk).
    + eexists _, _. split; [reflexivity|].
      split; [reflexivity|]. split; [exact Hk|].
      intros k c st. apply (proj1 Hk).
  - eexists _, _. split; [reflexivity|].
    split; [reflexivity|]. split; [reflexivity|]. auto.
Qed.

Lemma C7_oversized_write_rejected_witness :
  let h := LexicalHost.host "/" in
  let ts := ScrToolServer.MkToolServer (pathlib.Path "/workspace")
              ScrToolServer.default_allowed_commands
              ScrToolServer.default_restricted_paths 30 4 in
  let w := LexicalHost.world
             [("/", Dir ["workspace"] LexicalHost.dir_stat);
              ("/workspace", Dir [] LexicalHost.dir_stat)] in
  exists d w',
    ScrToolServer.write_file h ts "/workspace/sub/big.txt"
      (ScrToolServer.Text "too long") "utf-8" w = (Ok d, w') /\
    dict_get "success" d = Some (VBool false) /\
    fs w' !! "/workspace/sub/big.txt" = None.
Proof.
  intros h ts w.
  destruct (C7_oversized_write_rejected h ts "/workspace/sub/big.txt"
              (ScrToolServer.Text "too long") "utf-8" w)
    as (d & w' & Hrun & Hs & _ & Hfiles); [vm_compute; reflexivity|].
  exists d, w'. split; [exact Hrun|]. split; [exact Hs|].
  destruct (fs w' !! "/workspace/sub/big.txt") as [[c st|ns st]|] eqn:E;
    [apply Hfiles in E; vm_compute in E; discriminate| |reflexivity].
  vm_compute in Hrun. injection Hrun as _ <-. vm_compute in E. discriminate.
Defined.

(** C10: the [created] flag of a successful [write_file] is false: it is the
    negation of an existence check made after the file was written. *)
Theorem C10_created_flag_false (h : Host)
    (ts : ScrToolServer.ToolServer) (path : string)
    (content : ScrToolServer.content_arg) (encoding : string)
    (w w' : World) (d : dict) :
  ScrToolServer.write_file h ts path content encoding w = (Ok d, w') ->
  dict_get "success" d = Some (VBool true) ->
  dict_get "created" d = Some (VBool false).
Proof.
  unfold ScrToolServer.write_file, try_except.
  destruct (ScrToolServer.is_safe_path h ts path) as [[|] message]; simpl.
  - unfold bind at 1.
    destruct (Path_mkdir_parents h _ w) as [[[]|e] w1]; simpl;
      [|intros [= <- <-]; discriminate].
    destruct (_ >? _); simpl; [intros [= <- <-]; discriminate|].
    unfold bind at 1.
    destruct content as [s|b].
    + destruct (Path_write_text h _ s encoding w1) as [[[]|e] w2] eqn:Hw;
        simpl; [|intros [= <- <-]; discriminate].
      unfold bind. rewrite (write_text_exists _ _ _ _ _ _ Hw). simpl.
      intros [= <- <-] _. reflexivity.
    + destruct (Path_write_bytes h _ b w1) as [[[]|e] w2] eqn:Hw;
        simpl; [|intros [= <- <-]; discriminate].
      unfold bind. rewrite (write_bytes_exists _ _ _ _ _ Hw). simpl.
      intros [= <- <-] _. reflexivity.
  - intros [= <- <-]. discriminate.
Qed.

Lemma C10_created_flag_false_witness :
  let h := LexicalHost.host "/" in
  let ts := ScrToolServer.new "/workspace" None 30 in
  let w := LexicalHost.world
             [("/", Dir ["workspace"] LexicalHost.dir_stat);
              ("/workspace", Dir [] LexicalHost.dir_stat)] in
  fs w !! "/workspace/new.txt" = None /\
  dict_get "created"
    (match fst (ScrToolServer.write_file h ts "/workspace/new.txt"
                  (ScrToolServer.Text "hello") "utf-8" w) with
     | Ok d => d
     | Raise _ => []
     end) = Some (VBool false).
Proof.
  intros h ts w. split; [vm_compute; reflexivity|].
  destruct (ScrToolServer.write_file h ts "/workspace/new.txt"
              (ScrToolServer.Text "hello") "utf-8" w) as [[d|e] w'] eqn:E.
  - simpl. apply (C10_created_flag_false h ts "/workspace/new.txt"
                    (ScrToolServer.Text "hello") "utf-8" w w' d E).
    vm_compute in E. injection E as <- _. reflexivity.
  - vm_compute in E. discriminate.
Defined.

(** ** [list_directory] of the rich server *)

Section Listing.
Context (h : Host).

Lemma exists_found p k n w :
  locate h (fs w) p = Found k n -> Path_exists h p w = (Ok true, w).
Proof. intros L. unfold Path_exists, bind, get_fs. rewrite L. reflexivity. Qed.

Lemma is_dir_found p k n w :
  locate h (fs w) p = Found k n ->
  Path_is_dir h p w = (Ok (node_is_dir n), w).
Proof. intros L. unfold Path_is_dir, bind, get_fs. rewrite L. reflexivity. Qed.


End Listing.




(** ** The path guard *)

Section PathGuard.
Context (h : Host).

(** A path whose canonical form does not begin with the string of the
    workspace, or that cannot be canonicalised, does not pass the guard. *)
Lemma is_safe_path_outside (ts : ScrToolServer.ToolServer) (path : string) :
  (forall k, realpath h (pathlib.str (pathlib.Path path)) = Ok k ->
             PyStr.startswith (pathlib.str (pathlib.Path k))
               (pathlib.str (ScrToolServer.workspace_dir ts)) = false) ->
  fst (ScrToolServer.is_safe_path h ts path) = false.
Proof.
  intros H. unfold ScrToolServer.is_safe_path.
  destruct (realpath h _) as [k|e]; [|reflexivity].
  rewrite (H k eq_refl). simpl.
  destruct (List.find _ _); [reflexivity|].
  destruct (PyStr.contains _ _); reflexivity.
Qed.

(** A path that passes the guard has a canonical form that begins with the
    string of the workspace and with no restricted prefix. *)
Lemma is_safe_path_inside (ts : ScrToolServer.ToolServer) (path : string) :
  fst (ScrToolServer.is_safe_path h ts path) = true ->
  exists k, realpath h (pathlib.str (pathlib.Path path)) = Ok k /\
            PyStr.startswith (pathlib.str (pathlib.Path k))
              (pathlib.str (ScrToolServer.workspace_dir ts)) = true /\
            forall r, In r (ScrToolServer.restricted_paths ts) ->
                      PyStr.startswith (pathlib.str (pathlib.Path k)) r = false.
Proof.
  unfold ScrToolServer.is_safe_path.
  destruct (realpath h _) as [k|e]; [|discriminate].
  destruct (List.find _ _) eqn:F; [discriminate|].
  destruct (PyStr.startswith _ (pathlib.str _)) eqn:S.
  - intros _. exists k. split; [reflexivity|]. split; [exact S|].
    intros r Hr. exact (List.find_none _ _ F r Hr).
  - destruct (PyStr.contains _ _); simpl; discriminate.
Qed.

(** The rich [write_file] refuses such a path and changes nothing. *)
Lemma scr_write_file_outside (ts : ScrToolServer.ToolServer) (path : string)
    (content : ScrToolServer.content_arg) (encoding : string) (w : World) :
  (forall k, realpath h (pathlib.str (pathlib.Path path)) = Ok k ->
             PyStr.startswith (pathlib.str (pathlib.Path k))
               (pathlib.str (ScrToolServer.workspace_dir ts)) = false) ->
  exists message,
    ScrToolServer.write_file h ts path content encoding w
    = (Ok [("success", VBool false); ("error", VStr message)], w).
Proof.
  intros H. apply is_safe_path_outside in H.
  unfold ScrToolServer.write_file, try_except.
  destruct (ScrToolServer.is_safe_path h ts path) as [safe message].
  simpl in H. subst safe. exists message. reflexivity.
Qed.

End PathGuard.




(** ** The executor *)

(** C6, as stated: a rejected command gives [success] false and the return
    code 1. It fails for the simple server, which answers with the return
    code -1 and the fixed text ["Command not allowed"]. *)
Lemma C6_src_return_code_minus_one :
  ~ (forall (h : Host) (ts : SrcToolServer.ToolServer) (command : string)
            (working_dir : option string) (timeout : option Z) (w : World),
       SrcToolServer._is_safe_command ts command = false ->
       exists d w',
         SrcToolServer.execute h ts command working_dir timeout w = (Ok d, w') /\
         dict_get "success" d = Some (VBool false) /\
         dict_get "return_code" d = Some (VInt 1)).
Proof.
  intros H.
  destruct (H (LexicalHost.host "/") (SrcToolServer.new "/workspace" None 30)
              "sudo reboot" None None (LexicalHost.world []) eq_refl)
    as (d & w' & Hrun & _ & Hrc).
  vm_compute in Hrun. injection Hrun as <- _. discriminate.
Qed.

(** C6, amended: when the command guard rejects a command, [execute] returns
    at once, no process is run and the file system is as before. The rich
    server returns [success] false, the return code 1 and a [stderr] that
    carries the reason of the guard; the simple server returns [success]
    false, the return code -1 and the [stderr] ["Command not allowed"]. *)
Theorem C6_rejected_command_not_run (h : Host)
    (ts : ScrToolServer.ToolServer) (ts' : SrcToolServer.ToolServer)
    (command : string) (working_dir : option string) (timeout : option Z)
    (w : World) :
  (forall message,
     ScrToolServer.is_safe_command ts command = (false, message) ->
     ScrToolServer.execute h ts command working_dir timeout w
     = (Ok [("success", VBool false);
            ("stdout", VStr EmptyString);
            ("stderr", VStr ("Security violation: " +:+ message));
            ("return_code", VInt 1);
            ("execution_time",
             VFloat (clock h (S (ticks w)) - clock h (ticks w)))],
        MkWorld (fs w) (run_calls w) (S (S (ticks w))))) /\
  (SrcToolServer._is_safe_command ts' command = false ->
   SrcToolServer.execute h ts' command working_dir timeout w
   = (Ok [("success", VBool false);
          ("stdout", VStr EmptyString);
          ("stderr", VStr "Command not allowed");
          ("return_code", VInt (-1));
          ("execution_time", VInt 0)],
      MkWorld (fs w) (run_calls w) (S (ticks w)))).
Proof.
  split.
  - intros message Hg. unfold ScrToolServer.execute, bind, time_time.
    rewrite Hg. reflexivity.
  - intros Hg. unfold SrcToolServer.execute, bind, time_time.
    rewrite Hg. reflexivity.
Qed.

Lemma C6_rejected_command_not_run_witness :
  let h := LexicalHost.host "/" in
  let w := LexicalHost.world [] in
  dict_get "stderr"
    (match fst (ScrToolServer.execute h (ScrToolServer.new "/workspace" None 30)
                  "rm -rf /" None None w) with
     | Ok d => d
     | Raise _ => []
     end)
  = Some (VStr "Security violation: Command contains dangerous pattern: rm -rf /")
  /\ run_calls (snd (ScrToolServer.execute h
                       (ScrToolServer.new "/workspace" None 30)
                       "rm -rf /" None None w)) = []
  /\ run_calls (snd (SrcToolServer.execute h
                       (SrcToolServer.new "/workspace" None 30)
                       "rm -rf /" None None w)) = [].
Proof.
  intros h w.
  destruct (C6_rejected_command_not_run h
              (ScrToolServer.new "/workspace" None 30)
              (SrcToolServer.new "/workspace" None 30)
              "rm -rf /" None None w) as [H1 H2].
  rewrite (H1 _ eq_refl), (H2 eq_refl). repeat split.
Defined.

(** ** Confinement of writes *)

(** C1, at the failing input: the workspace is [/workspace] and the path is
    [/workspace2/evil.txt]. Its canonical form is not under the workspace,
    but it begins with the string ["/workspace"], which is all the guard
    compares: the path passes the guard of the rich server, and both servers
    write the file outside the workspace, in a new directory
    [/workspace2]. *)
Theorem C1_write_outside_workspace :
  let h := LexicalHost.host "/" in
  let w := LexicalHost.world
             [("/", Dir ["workspace"] LexicalHost.dir_stat);
              ("/workspace", Dir [] LexicalHost.dir_stat)] in
  let path := "/workspace2/evil.txt" in
  let scr := ScrToolServer.write_file h (ScrToolServer.new "/workspace" None 30)
               path (ScrToolServer.Text "x") "utf-8" w in
  let src := SrcToolServer.write_file h (SrcToolServer.new "/workspace" None 30)
               path "x" w in
  realpath h (pathlib.str (pathlib.Path path)) = Ok path /\
  under_dir "/workspace" path = false /\
  ScrToolServer.is_safe_path h (ScrToolServer.new "/workspace" None 30) path
  = (true, "OK") /\
  fs w !! path = None /\
  fst scr = Ok [("success", VBool true); ("path", VStr path);
                ("size", VInt 1); ("created", VBool false)] /\
  fs (snd scr) !! path = Some (File "x" (LexicalHost.file_stat 1)) /\
  fst src = Ok [("success", VBool true); ("path", VStr path)] /\
  fs (snd src) !! path = Some (File "x" (LexicalHost.file_stat 1)).
Proof. vm_compute. repeat split. Qed.

(** ** Exceptions that escape *)

(** C5, at the failing input: the command [ls] is safe and the working
    directory [/workspace/notes.txt] passes the path guard, but it is a
    regular file: [mkdir] raises [FileExistsError] before the [try] block of
    [execute], and the exception leaves [execute], in both servers. No
    process is run. *)
Theorem C5_execute_raises :
  let h := LexicalHost.host "/" in
  let w := LexicalHost.world
             [("/", Dir ["workspace"] LexicalHost.dir_stat);
              ("/workspace", Dir ["notes.txt"] LexicalHost.dir_stat);
              ("/workspace/notes.txt",
               File "hello" (LexicalHost.file_stat 5))] in
  let scr := ScrToolServer.new "/workspace" None 30 in
  let src := SrcToolServer.new "/workspace" None 30 in
  let e := Exn FileExistsError
             "[Errno 17] File exists: '/workspace/notes.txt'" in
  ScrToolServer.is_safe_command scr "ls" = (true, "OK") /\
  ScrToolServer.is_safe_path h scr "/workspace/notes.txt" = (true, "OK") /\
  fst (ScrToolServer.execute h scr "ls" (Some "/workspace/notes.txt") None w)
  = Raise e /\
  SrcToolServer._is_safe_command src "ls" = true /\
  fst (SrcToolServer.execute h src "ls" (Some "/workspace/notes.txt") None w)
  = Raise e /\
  run_calls (snd (ScrToolServer.execute h scr "ls"
                    (Some "/workspace/notes.txt") None w)) = [].
Proof. vm_compute. repeat split. Qed.

(** The file operations of the rich server are inside [try] blocks that
    handle every exception: they always return a result. *)
Lemma try_any_returns {A} (c : M A) (hd : exn -> A) (w : World) :
  exists a w', try_except c any_exception (fun e => ret (hd e)) w = (Ok a, w').
Proof.
  unfold try_except. destruct (c w) as [[a|e] w']; simpl; eauto.
Qed.

Lemma scr_read_file_returns (h : Host) (ts : ScrToolServer.ToolServer)
    (path encoding : string) (w : World) :
  exists d w', ScrToolServer.read_file h ts path encoding w = (Ok d, w').
Proof. unfold ScrToolServer.read_file. apply try_any_returns. Qed.

Lemma scr_write_file_returns (h : Host) (ts : ScrToolServer.ToolServer)
    (path : string) (content : ScrToolServer.content_arg) (encoding : string)
    (w : World) :
  exists d w', ScrToolServer.write_file h ts path content encoding w
               = (Ok d, w').
Proof. unfold ScrToolServer.write_file. apply try_any_returns. Qed.

Lemma scr_list_directory_returns (h : Host) (ts : ScrToolServer.ToolServer)
    (path : option string) (w : World) :
  exists d w', ScrToolServer.list_directory h ts path w = (Ok d, w').
Proof. unfold ScrToolServer.list_directory. apply try_any_returns. Qed.

(** Without a working directory the rich [execute] always returns a
    result. *)
Lemma scr_execute_returns_in_workspace (h : Host)
    (ts : ScrToolServer.ToolServer) (command : string) (timeout : option Z)
    (w : World) :
  exists d w', ScrToolServer.execute h ts command None timeout w = (Ok d, w').
Proof.
  unfold ScrToolServer.execute, bind at 1, time_time at 1.
  destruct (ScrToolServer.is_safe_command ts command) as [[|] message]; simpl.
  - unfold try_except, bind at 1.
    destruct (subprocess_run h _ _) as [[[[rc so] se]|e] w1]; simpl.
    + unfold bind, time_time. eauto.
    + unfold bind, time_time. destruct (is_TimeoutExpired e); eauto.
  - unfold bind, time_time. eauto.
Qed.

(** * Further properties of the code *)

(** ** The command guard on edge inputs *)

Lemma read_tokens_whitespace (esc : shlex.lexstate) (s : string) :
  all_whitespace s = true ->
  shlex.read_tokens shlex.StSpace esc false EmptyString s = Ok [].
Proof.
  induction s as [|c s IH]; simpl; [reflexivity|].
  intros H. apply andb_prop in H as [Hc Hs].
  rewrite Hc. simpl. apply IH. exact Hs.
Qed.

(** A command that is empty or made of blanks, tabs and line ends only is
    rejected: the rich server answers ["Empty command"], the simple one
    [False]. *)
Theorem blank_command_rejected
    (ts : ScrToolServer.ToolServer) (ts' : SrcToolServer.ToolServer)
    (command : string) :
  all_whitespace command = true ->
  ScrToolServer.is_safe_command ts command = (false, "Empty command") /\
  SrcToolServer._is_safe_command ts' command = false.
Proof.
  intros H.
  unfold ScrToolServer.is_safe_command, SrcToolServer._is_safe_command,
    shlex.split.
  rewrite (read_tokens_whitespace _ _ H). split; reflexivity.
Qed.

Lemma blank_command_rejected_witness :
  ScrToolServer.is_safe_command (ScrToolServer.new "/workspace" None 30)
    (String " " (String "009" (String "010" EmptyString)))
  = (false, "Empty command").
Proof.
  apply (blank_command_rejected (ScrToolServer.new "/workspace" None 30)
           (SrcToolServer.new "/workspace" None 30)).
  reflexivity.
Defined.

(** A command with [".."] and one of [/etc], [/root], [/boot] in its text is
    never safe for the rich server, whatever its base command is. *)
Theorem scr_traversal_rejected (ts : ScrToolServer.ToolServer)
    (command root : string) :
  In root ["/etc"; "/root"; "/boot"] ->
  PyStr.contains command ".." = true ->
  PyStr.contains command root = true ->
  fst (ScrToolServer.is_safe_command ts command) = false.
Proof.
  intros Hin Hdots Hroot. unfold ScrToolServer.is_safe_command.
  destruct (shlex.split command) as [[|first rest]|e]; try reflexivity.
  destruct (negb _); [reflexivity|].
  destruct (List.find _ _); [reflexivity|].
  rewrite Hdots.
  assert (E : existsb (fun x => PyStr.contains command x)
                      ["/etc"; "/root"; "/boot"] = true).
  { apply existsb_exists. exists root. split; assumption. }
  rewrite E. reflexivity.
Qed.

Lemma scr_traversal_rejected_witness :
  ScrToolServer.is_safe_command (ScrToolServer.new "/workspace" None 30)
    "cat ../../etc/passwd"
  = (false, "Path traversal attempt detected") /\
  SrcToolServer._is_safe_command (SrcToolServer.new "/workspace" None 30)
    "cat ../../etc/passwd" = true.
Proof.
  pose proof (scr_traversal_rejected (ScrToolServer.new "/workspace" None 30)
                "cat ../../etc/passwd" "/etc"
                (or_introl eq_refl) eq_refl eq_refl) as H.
  destruct (ScrToolServer.is_safe_command _ _) as [b m] eqn:E.
  simpl in H. subst b. vm_compute in E. injection E as <-.
  split; reflexivity.
Defined.

Lemma find_none_sublist {A} (f : A -> bool) (l l' : list A) :
  (forall x, In x l' -> In x l) ->
  List.find f l = None -> List.find f l' = None.
Proof.
  intros Hsub Hnone.
  destruct (List.find f l') as [x|] eqn:E; [|reflexivity].
  apply List.find_some in E as [Hin Hf].
  rewrite (List.find_none _ _ Hnone x (Hsub x Hin)) in Hf. discriminate.
Qed.

(** With the same allow-list the rich guard is the stricter one: a command
    it accepts is accepted by the simple guard. *)
Theorem scr_safe_implies_src_safe
    (ts : ScrToolServer.ToolServer) (ts' : SrcToolServer.ToolServer)
    (command : string) :
  ScrToolServer.allowed_commands ts = SrcToolServer.allowed_commands ts' ->
  fst (ScrToolServer.is_safe_command ts command) = true ->
  SrcToolServer._is_safe_command ts' command = true.
Proof.
  intros Hallow.
  unfold ScrToolServer.is_safe_command, SrcToolServer._is_safe_command.
  destruct (shlex.split command) as [[|first rest]|e]; try discriminate.
  rewrite <- Hallow.
  destruct (negb _); [discriminate|].
  destruct (List.find _ ScrToolServer.dangerous_patterns) eqn:F;
    [discriminate|].
  intros _.
  rewrite (find_none_sublist _ ScrToolServer.dangerous_patterns
             SrcToolServer.dangerous_patterns); [reflexivity| |exact F].
  intros x Hx. simpl in Hx |- *. tauto.
Qed.

Lemma scr_safe_implies_src_safe_witness :
  SrcToolServer._is_safe_command
    (SrcToolServer.new "/workspace" (Some ["ls"; "echo"]) 30)
    "echo hello" = true.
Proof.
  apply (scr_safe_implies_src_safe
           (ScrToolServer.new "/workspace" (Some ["ls"; "echo"]) 30));
    reflexivity.
Defined.

(** ** The path guard *)

Lemma startswith_trans (s p r : string) :
  PyStr.startswith s p = true -> PyStr.startswith p r = true ->
  PyStr.startswith s r = true.
Proof.
  revert s p. induction r as [|a r IH]; intros s p Hsp Hpr; simpl;
    [reflexivity|].
  destruct p as [|b p]; simpl in Hpr; [discriminate|].
  apply andb_prop in Hpr as [Hab Hpr].
  destruct s as [|c s]; simpl in Hsp; [discriminate|].
  apply andb_prop in Hsp as [Hbc Hsp].
  apply Ascii.eqb_eq in Hab, Hbc. subst.
  rewrite Ascii.eqb_refl. simpl. eapply IH; eassumption.
Qed.

(** The verdict of the path guard: a path is safe exactly when it can be
    canonicalised and its canonical form begins with no restricted prefix and
    begins with the string of the workspace directory; the reason is then
    ["OK"]. *)
Theorem is_safe_path_iff (h : Host) (ts : ScrToolServer.ToolServer)
    (path : string) :
  fst (ScrToolServer.is_safe_path h ts path) = true <->
  exists k, realpath h (pathlib.str (pathlib.Path path)) = Ok k /\
            PyStr.startswith (pathlib.str (pathlib.Path k))
              (pathlib.str (ScrToolServer.workspace_dir ts)) = true /\
            forall r, In r (ScrToolServer.restricted_paths ts) ->
                      PyStr.startswith (pathlib.str (pathlib.Path k)) r = false.
Proof.
  split; [apply is_safe_path_inside|].
  intros (k & Hk & Hw & Hr). unfold ScrToolServer.is_safe_path.
  rewrite Hk, Hw.
  destruct (List.find _ _) as [r|] eqn:F.
  - apply List.find_some in F as [Hin Hs]. rewrite (Hr r Hin) in Hs.
    discriminate.
  - rewrite andb_false_r. reflexivity.
Qed.

(** A path whose canonical form begins with a restricted prefix is rejected,
    inside the workspace too, and the reason names the first such prefix of
    the list. *)
Theorem restricted_path_rejected (h : Host) (ts : ScrToolServer.ToolServer)
    (path k r : string) :
  realpath h (pathlib.str (pathlib.Path path)) = Ok k ->
  In r (ScrToolServer.restricted_paths ts) ->
  PyStr.startswith (pathlib.str (pathlib.Path k)) r = true ->
  exists r',
    In r' (ScrToolServer.restricted_paths ts) /\
    PyStr.startswith (pathlib.str (pathlib.Path k)) r' = true /\
    ScrToolServer.is_safe_path h ts path
    = (false, "Path is in restricted area: " +:+ r').
Proof.
  intros Hk Hin Hs. unfold ScrToolServer.is_safe_path. rewrite Hk.
  destruct (List.find _ _) as [r'|] eqn:F.
  - exists r'. apply List.find_some in F as [? ?]. auto.
  - rewrite (List.find_none _ _ F r Hin) in Hs. discriminate.
Qed.

Lemma restricted_path_rejected_witness :
  ScrToolServer.is_safe_path (LexicalHost.host "/")
    (ScrToolServer.new "/" None 30) "/library/books.txt"
  = (false, "Path is in restricted area: /lib").
Proof.
  destruct (restricted_path_rejected (LexicalHost.host "/")
              (ScrToolServer.new "/" None 30) "/library/books.txt"
              "/library/books.txt" "/lib" eq_refl)
    as (r' & Hin & Hs & Hrun); [simpl; tauto | reflexivity |].
  rewrite Hrun. vm_compute in Hrun. injection Hrun as <-. reflexivity.
Defined.

(** When the workspace directory itself begins with a restricted prefix, the
    guard accepts no path at all. *)
Theorem workspace_in_restricted_area (h : Host)
    (ts : ScrToolServer.ToolServer) (r : string) :
  In r (ScrToolServer.restricted_paths ts) ->
  PyStr.startswith (pathlib.str (ScrToolServer.workspace_dir ts)) r = true ->
  forall path, fst (ScrToolServer.is_safe_path h ts path) = false.
Proof.
  intros Hin Hws path.
  destruct (fst (ScrToolServer.is_safe_path h ts path)) eqn:E; [|reflexivity].
  apply is_safe_path_inside in E as (k & _ & Hk & Hr).
  specialize (Hr r Hin).
  rewrite (startswith_trans _ _ _ Hk Hws) in Hr. discriminate.
Qed.

Lemma workspace_in_restricted_area_witness :
  ScrToolServer.is_safe_path (LexicalHost.host "/")
    (ScrToolServer.new "/root/workspace" None 30) "/root/workspace/notes.txt"
  = (false, "Path is in restricted area: /root").
Proof.
  pose proof (workspace_in_restricted_area (LexicalHost.host "/")
                (ScrToolServer.new "/root/workspace" None 30) "/root"
                ltac:(simpl; tauto) eq_refl "/root/workspace/notes.txt") as H.
  destruct (ScrToolServer.is_safe_path _ _ _) as [b m] eqn:E.
  simpl in H. subst b. vm_compute in E. injection E as <-. reflexivity.
Defined.

(** ** The executor *)

(** A working directory that the path guard rejects: the rich [execute]
    returns [success] false with the return code 1 and the reason of the
    guard, runs no process and leaves the file system as it is. *)
Theorem scr_execute_invalid_working_dir (h : Host)
    (ts : ScrToolServer.ToolServer) (command wd message : string)
    (timeout : option Z) (w : World) :
  fst (ScrToolServer.is_safe_command ts command) = true ->
  PyStr.is_empty wd = false ->
  ScrToolServer.is_safe_path h ts wd = (false, message) ->
  ScrToolServer.execute h ts command (Some wd) timeout w
  = (Ok [("success", VBool false);
         ("stdout", VStr EmptyString);
         ("stderr", VStr ("Invalid working directory: " +:+ message));
         ("return_code", VInt 1);
         ("execution_time",
          VFloat (clock h (S (ticks w)) - clock h (ticks w)))],
     MkWorld (fs w) (run_calls w) (S (S (ticks w)))).
Proof.
  intros Hg Hwd Hp. unfold ScrToolServer.execute, bind, time_time.
  destruct (ScrToolServer.is_safe_command ts command) as [safe m].
  simpl in Hg. subst safe. simpl. rewrite Hwd, Hp. reflexivity.
Qed.

Lemma scr_execute_invalid_working_dir_witness :
  fst (ScrToolServer.execute (LexicalHost.host "/")
         (ScrToolServer.new "/workspace" None 30) "ls" (Some "/etc") None
         (LexicalHost.world []))
  = Ok [("success", VBool false);
        ("stdout", VStr EmptyString);
        ("stderr",
         VStr "Invalid working directory: Path is in restricted area: /etc");
        ("return_code", VInt 1);
        ("execution_time", VFloat 1)].
Proof.
  rewrite (scr_execute_invalid_working_dir (LexicalHost.host "/")
             (ScrToolServer.new "/workspace" None 30) "ls" "/etc"
             "Path is in restricted area: /etc" None (LexicalHost.world [])
             eq_refl eq_refl eq_refl).
  reflexivity.
Defined.

(** One call of [execute] runs at most one process, and only for a command
    the guard accepts: the command line is the command as given, the timeout
    is the argument or, when that is missing or 0, the timeout of the server,
    and the working directory is the workspace or a working directory that
    passed the path guard (rich server), the argument or the workspace
    (simple server). *)
Theorem execute_runs_accepted_command_once (h : Host)
    (ts : ScrToolServer.ToolServer) (ts' : SrcToolServer.ToolServer)
    (command : string) (working_dir : option string) (timeout : option Z)
    (w : World) :
  (let w' := snd (ScrToolServer.execute h ts command working_dir timeout w) in
   run_calls w' = run_calls w \/
   (fst (ScrToolServer.is_safe_command ts command) = true /\
    exists cwd,
      run_calls w'
      = run_calls w ++
        [MkRun command cwd (Some (ScrToolServer.env_PATH h))
               (builtins.or_int timeout (ScrToolServer.timeout ts))] /\
      (cwd = pathlib.str (ScrToolServer.workspace_dir ts) \/
       exists wd, working_dir = Some wd /\
                  fst (ScrToolServer.is_safe_path h ts wd) = true /\
                  cwd = pathlib.str (pathlib.Path wd)))) /\
  (let w' := snd (SrcToolServer.execute h ts' command working_dir timeout w) in
   run_calls w' = run_calls w \/
   (SrcToolServer._is_safe_command ts' command = true /\
    exists cwd,
      run_calls w'
      = run_calls w ++
        [MkRun command cwd None
               (builtins.or_int timeout (SrcToolServer.timeout ts'))] /\
      (cwd = SrcToolServer.workspace_dir ts' \/ working_dir = Some cwd))).
Proof.
  assert (Htruthy : forall wd, builtins.truthy working_dir = Some wd ->
                               working_dir = Some wd).
  { intros wd. unfold builtins.truthy. destruct working_dir as [x|];
      [|discriminate]. destruct (PyStr.is_empty x); congruence. }
  split; cbv zeta.
  - unfold ScrToolServer.execute, bind, try_except, time_time,
      subprocess_run.
    destruct (ScrToolServer.is_safe_command ts command) as [[|] m]; simpl;
      [|left; reflexivity].
    destruct (builtins.truthy working_dir) as [wd|] eqn:Ht.
    + destruct (ScrToolServer.is_safe_path h ts wd) as [[|] msg] eqn:Hp;
        simpl; [|left; reflexivity].
      match goal with
      | |- context [Path_mkdir_parents h ?p ?w0] =>
          pose proof (Path_mkdir_parents_only_dirs h p w0) as Hk;
          destruct (Path_mkdir_parents h p w0) as [[[]|e] w1]
      end; simpl in Hk |- *; destruct Hk as [_ Hk]; [|left; exact Hk].
      right. split; [reflexivity|].
      exists (pathlib.str (pathlib.Path wd)). split.
      * destruct (run_process h _ (fs w1)) as [[rc so se| |e] files]; simpl;
          try (destruct (is_TimeoutExpired e)); simpl; rewrite Hk;
          reflexivity.
      * right. exists wd. rewrite Hp. auto.
    + right. split; [reflexivity|].
      exists (pathlib.str (ScrToolServer.workspace_dir ts)). split.
      * destruct (run_process h _ _) as [[rc so se| |e] files]; simpl;
          try (destruct (is_TimeoutExpired e)); simpl; reflexivity.
      * left. reflexivity.
  - unfold SrcToolServer.execute, bind, try_except, time_time,
      subprocess_run.
    destruct (SrcToolServer._is_safe_command ts' command); simpl;
      [|left; reflexivity].
    match goal with
    | |- context [Path_mkdir_parents h ?p ?w0] =>
        pose proof (Path_mkdir_parents_only_dirs h p w0) as Hk;
        destruct (Path_mkdir_parents h p w0) as [[[]|e] w1]
    end; simpl in Hk |- *; destruct Hk as [_ Hk]; [|left; exact Hk].
    right. split; [reflexivity|].
    eexists. split.
    + destruct (run_process h _ (fs w1)) as [[rc so se| |e] files]; simpl;
        try (destruct (is_TimeoutExpired e)); simpl; rewrite Hk;
        reflexivity.
    + destruct (builtins.truthy working_dir) as [wd|] eqn:Ht;
        [right; apply Htruthy; reflexivity | left; reflexivity].
Qed.

(** A process that ends: the rich [execute] reports its return code and its
    output, [success] is true exactly for the return code 0, and the run took
    place in the workspace with the extended [PATH]. *)
Theorem scr_execute_completed (h : Host) (ts : ScrToolServer.ToolServer)
    (command : string) (timeout : option Z) (w : World)
    (returncode : Z) (stdout stderr : string) (files : gmap string node) :
  let call := MkRun command (pathlib.str (ScrToolServer.workspace_dir ts))
                (Some (ScrToolServer.env_PATH h))
                (builtins.or_int timeout (ScrToolServer.timeout ts)) in
  fst (ScrToolServer.is_safe_command ts command) = true ->
  run_process h call (fs w) = (Completed returncode stdout stderr, files) ->
  ScrToolServer.execute h ts command None timeout w
  = (Ok [("success", VBool (returncode =? 0));
         ("stdout", VStr stdout);
         ("stderr", VStr stderr);
         ("return_code", VInt returncode);
         ("execution_time",
          VFloat (clock h (S (ticks w)) - clock h (ticks w)));
         ("working_dir",
          VStr (pathlib.str (ScrToolServer.workspace_dir ts)))],
     MkWorld files (run_calls w ++ [call]) (S (S (ticks w)))).
Proof.
  intros call Hg Hrun.
  unfold ScrToolServer.execute. unfold bind at 1, time_time at 1.
  destruct (ScrToolServer.is_safe_command ts command) as [safe m].
  simpl in Hg. subst safe. simpl.
  unfold try_except, bind, subprocess_run, time_time. simpl.
  fold call. rewrite Hrun. reflexivity.
Qed.

Lemma scr_execute_completed_witness :
  fst (ScrToolServer.execute (LexicalHost.host "/")
         (ScrToolServer.new "/workspace" None 30) "echo hello" None None
         (LexicalHost.world []))
  = Ok [("success", VBool true);
        ("stdout", VStr EmptyString);
        ("stderr", VStr EmptyString);
        ("return_code", VInt 0);
        ("execution_time", VFloat 1);
        ("working_dir", VStr "/workspace")].
Proof.
  rewrite (scr_execute_completed (LexicalHost.host "/")
             (ScrToolServer.new "/workspace" None 30) "echo hello" None
             (LexicalHost.world []) 0 EmptyString EmptyString
             (fs (LexicalHost.world [])) eq_refl eq_refl).
  reflexivity.
Defined.

(** A command run in the workspace (no working directory is given) whose
    process runs into the timeout: the rich [execute] returns [success] false
    and the return code -1, and [stderr] names the timeout in force, which
    for a timeout argument that is missing or 0 is the timeout of the
    server. *)
Theorem scr_execute_timed_out (h : Host) (ts : ScrToolServer.ToolServer)
    (command : string) (timeout : option Z) (w : World)
    (files : gmap string node) :
  let call := MkRun command (pathlib.str (ScrToolServer.workspace_dir ts))
                (Some (ScrToolServer.env_PATH h))
                (builtins.or_int timeout (ScrToolServer.timeout ts)) in
  fst (ScrToolServer.is_safe_command ts command) = true ->
  run_process h call (fs w) = (TimedOut, files) ->
  ScrToolServer.execute h ts command None timeout w
  = (Ok [("success", VBool false);
         ("stdout", VStr EmptyString);
         ("stderr",
          VStr ("Command timed out after " +:+
                PyStr.str_of_Z
                  (builtins.or_int timeout (ScrToolServer.timeout ts))
                +:+ " seconds"));
         ("return_code", VInt (-1));
         ("execution_time",
          VFloat (clock h (S (ticks w)) - clock h (ticks w)))],
     MkWorld files (run_calls w ++ [call]) (S (S (ticks w)))).
Proof.
  intros call Hg Hrun.
  unfold ScrToolServer.execute. unfold bind at 1, time_time at 1.
  destruct (ScrToolServer.is_safe_command ts command) as [safe m].
  simpl in Hg. subst safe. simpl.
  unfold try_except, bind, subprocess_run, time_time. simpl.
  fold call. rewrite Hrun. reflexivity.
Qed.

Lemma scr_execute_timed_out_witness :
  dict_get "stderr"
    (match fst (ScrToolServer.execute slow_host
                  (ScrToolServer.new "/workspace" None 30) "ls" None (Some 0)
                  (LexicalHost.world [])) with
     | Ok d => d
     | Raise _ => []
     end)
  = Some (VStr "Command timed out after 30 seconds").
Proof.
  rewrite (scr_execute_timed_out slow_host
             (ScrToolServer.new "/workspace" None 30) "ls" (Some 0)
             (LexicalHost.world []) (fs (LexicalHost.world []))
             eq_refl eq_refl).
  reflexivity.
Defined.

(** ** Reading *)

Section Reading.
Context (h : Host).

Lemma Path_read_bytes_reads p : keeps eq (Path_read_bytes h p).
Proof.
  intros w. unfold Path_read_bytes, bind, get_fs.
  destruct (locate h (fs w) p) as [e|k|k|k [c st|ns st]]; reflexivity.
Qed.

Lemma Path_read_text_reads p encoding ignore :
  keeps eq (Path_read_text h p encoding ignore).
Proof.
  unfold Path_read_text.
  apply keeps_bind; [apply _ | apply Path_read_bytes_reads | intros c].
  apply keeps_bind; [apply _ | apply keeps_lift; apply _ | intros text].
  apply keeps_ret; apply _.
Qed.

Lemma stat_found p k n w :
  locate h (fs w) p = Found k n -> Path_stat h p w = (Ok (node_stat n), w).
Proof. intros L. unfold Path_stat, bind, get_fs. rewrite L. reflexivity. Qed.


Lemma exists_missing p k w :
  locate h (fs w) p = Missing k -> Path_exists h p w = (Ok false, w).
Proof. intros L. unfold Path_exists, bind, get_fs. rewrite L. reflexivity. Qed.

End Reading.

(** [read_file] of the rich server never changes the world: no file, no
    directory, no process, no reading of the clock. *)
Theorem scr_read_file_reads_only (h : Host) (ts : ScrToolServer.ToolServer)
    (path encoding : string) (w : World) :
  snd (ScrToolServer.read_file h ts path encoding w) = w.
Proof.
  symmetry. revert w. change (keeps eq (ScrToolServer.read_file h ts path encoding)).
  unfold ScrToolServer.read_file.
  apply keeps_try; [apply _ | | intros e; apply keeps_ret; apply _].
  destruct (ScrToolServer.is_safe_path h ts path) as [[|] message]; simpl;
    [|apply keeps_ret; apply _].
  apply keeps_bind; [apply _ | apply Path_exists_reads | intros there].
  destruct there; simpl; [|apply keeps_ret; apply _].
  apply keeps_bind; [apply _ | apply Path_stat_reads | intros st].
  destruct (_ >? _).
  - apply keeps_bind; [apply _ | apply Path_stat_reads | intros st'].
    apply keeps_ret; apply _.
  - apply keeps_try; [apply _ | | intros e].
    + apply keeps_bind; [apply _ | apply Path_read_text_reads | intros c].
      apply keeps_ret; apply _.
    + apply keeps_bind; [apply _ | apply Path_read_bytes_reads | intros c].
      apply keeps_ret; apply _.
Qed.

(** A path that passes the guard and leads to nothing: [read_file] answers
    ["File not found"]. *)
Theorem scr_read_file_missing (h : Host) (ts : ScrToolServer.ToolServer)
    (path encoding k : string) (w : World) :
  fst (ScrToolServer.is_safe_path h ts path) = true ->
  locate h (fs w) (pathlib.Path path) = Missing k ->
  ScrToolServer.read_file h ts path encoding w
  = (Ok [("success", VBool false); ("error", VStr "File not found");
         ("content", VStr EmptyString)], w).
Proof.
  intros Hs L. unfold ScrToolServer.read_file, try_except.
  destruct (ScrToolServer.is_safe_path h ts path) as [safe m].
  simpl in Hs. subst safe. simpl.
  unfold bind. rewrite (exists_missing h _ _ _ L). reflexivity.
Qed.

Lemma scr_read_file_missing_witness :
  fst (ScrToolServer.read_file (LexicalHost.host "/") (demo_server 100)
         "/workspace/nothing.txt" "utf-8" demo_world)
  = Ok [("success", VBool false); ("error", VStr "File not found");
        ("content", VStr EmptyString)].
Proof.
  rewrite (scr_read_file_missing (LexicalHost.host "/") (demo_server 100)
             "/workspace/nothing.txt" "utf-8" "/workspace/nothing.txt"
             demo_world eq_refl eq_refl).
  reflexivity.
Defined.

(** The answer of [read_file] for a node above the size limit. *)
Lemma read_file_above_limit (h : Host) (ts : ScrToolServer.ToolServer)
    (path encoding k : string) (n : node) (w : World) :
  fst (ScrToolServer.is_safe_path h ts path) = true ->
  locate h (fs w) (pathlib.Path path) = Found k n ->
  st_size (node_stat n) > ScrToolServer.max_file_size ts ->
  ScrToolServer.read_file h ts path encoding w
  = (Ok [("success", VBool false);
         ("error", VStr ("File too large (" +:+
                         PyStr.str_of_Z (st_size (node_stat n)) +:+ " > " +:+
                         PyStr.str_of_Z (ScrToolServer.max_file_size ts)
                         +:+ ")"));
         ("content", VStr EmptyString)], w).
Proof.
  intros Hs L Hgt. unfold ScrToolServer.read_file, try_except.
  destruct (ScrToolServer.is_safe_path h ts path) as [safe m].
  simpl in Hs. subst safe. simpl.
  unfold bind at 1. rewrite (exists_found h _ _ _ _ L). simpl.
  unfold bind at 1. rewrite (stat_found h _ _ _ _ L).
  assert (E : (st_size (node_stat n) >? ScrToolServer.max_file_size ts) = true)
    by (apply Z.gtb_lt; lia).
  rewrite E. unfold bind. rewrite (stat_found h _ _ _ _ L). reflexivity.
Qed.

(** A file whose size is above [max_file_size] is not read: [read_file]
    answers with the two sizes and an empty content. *)
Theorem scr_read_file_too_large (h : Host) (ts : ScrToolServer.ToolServer)
    (path encoding k : string) (n : node) (w : World) :
  fst (ScrToolServer.is_safe_path h ts path) = true ->
  locate h (fs w) (pathlib.Path path) = Found k n ->
  st_size (node_stat n) > ScrToolServer.max_file_size ts ->
  ScrToolServer.read_file h ts path encoding w
  = (Ok [("success", VBool false);
         ("error", VStr ("File too large (" +:+
                         PyStr.str_of_Z (st_size (node_stat n)) +:+ " > " +:+
                         PyStr.str_of_Z (ScrToolServer.max_file_size ts)
                         +:+ ")"));
         ("content", VStr EmptyString)], w).
Proof. exact (read_file_above_limit h ts path encoding k n w). Qed.

Lemma scr_read_file_too_large_witness :
  fst (ScrToolServer.read_file (LexicalHost.host "/") (demo_server 4)
         "/workspace/big.txt" "utf-8" demo_world)
  = Ok [("success", VBool false); ("error", VStr "File too large (8 > 4)");
        ("content", VStr EmptyString)].
Proof.
  rewrite (scr_read_file_too_large (LexicalHost.host "/") (demo_server 4)
             "/workspace/big.txt" "utf-8" "/workspace/big.txt"
             (File "too long" (LexicalHost.file_stat 8)) demo_world
             eq_refl eq_refl eq_refl).
  reflexivity.
Defined.




(** ** Listing *)

(** [list_directory] never changes the world. *)
Theorem scr_list_directory_reads_only (h : Host)
    (ts : ScrToolServer.ToolServer) (path : option string) (w : World) :
  snd (ScrToolServer.list_directory h ts path w) = w.
Proof.
  symmetry. revert w.
  change (keeps eq (ScrToolServer.list_directory h ts path)).
  unfold ScrToolServer.list_directory.
  apply keeps_try; [apply _ | | intros e; apply keeps_ret; apply _].
  assert (Hl : forall target, keeps eq
    (there <- Path_exists h target ;;
     if negb there then
       ret [("success", VBool false);
            ("error", VStr "Directory not found"); ("files", VList [])]
     else
       is_dir <- Path_is_dir h target ;;
       if negb is_dir then
         ret [("success", VBool false);
              ("error", VStr "Not a directory"); ("files", VList [])]
       else
         items <- Path_iterdir h target ;;
         files <- ScrToolServer.collect h ts items ;;
         ret [("success", VBool true);
              ("path", VStr (pathlib.str target));
              ("files", VList (List.map VDict
                                 (builtins.sorted ScrToolServer.key_le files)));
              ("count", VInt (Z.of_nat (List.length files)))])%py).
  { intros target.
    apply keeps_bind; [apply _ | apply Path_exists_reads | intros there].
    destruct there; simpl; [|apply keeps_ret; apply _].
    apply keeps_bind; [apply _ | apply Path_is_dir_reads | intros d].
    destruct d; simpl; [|apply keeps_ret; apply _].
    apply keeps_bind; [apply _ | apply Path_iterdir_reads | intros items].
    apply keeps_bind; [apply _ | | intros files; apply keeps_ret; apply _].
    intros w. rewrite collect_kept. reflexivity. }
  destruct (builtins.truthy path) as [p|]; [|apply Hl].
  destruct (ScrToolServer.is_safe_path h ts p) as [[|] message]; simpl;
    [apply Hl | apply keeps_ret; apply _].
Qed.

(** A target that is missing gives ["Directory not found"], a target that is
    a regular file gives ["Not a directory"]. *)
Theorem scr_list_directory_not_a_directory (h : Host)
    (ts : ScrToolServer.ToolServer) (path : option string) (w : World)
    (target : pathlib.PurePath) :
  listing_target h ts path = Some target ->
  (forall k, locate h (fs w) target = Missing k ->
     ScrToolServer.list_directory h ts path w
     = (Ok [("success", VBool false); ("error", VStr "Directory not found");
            ("files", VList [])], w)) /\
  (forall k c st, locate h (fs w) target = Found k (File c st) ->
     ScrToolServer.list_directory h ts path w
     = (Ok [("success", VBool false); ("error", VStr "Not a directory");
            ("files", VList [])], w)).
Proof.
  intros Ht.
  unfold listing_target in Ht.
  split.
  - intros k L. unfold ScrToolServer.list_directory, try_except.
    destruct (builtins.truthy path) as [p|].
    + destruct (ScrToolServer.is_safe_path h ts p) as [[|] message];
        simpl in Ht; [|discriminate]. injection Ht as <-. simpl.
      unfold bind. rewrite (exists_missing h _ _ _ L). reflexivity.
    + injection Ht as <-.
      unfold bind. rewrite (exists_missing h _ _ _ L). reflexivity.
  - intros k c st L. unfold ScrToolServer.list_directory, try_except.
    destruct (builtins.truthy path) as [p|].
    + destruct (ScrToolServer.is_safe_path h ts p) as [[|] message];
        simpl in Ht; [|discriminate]. injection Ht as <-. simpl.
      unfold bind at 1. rewrite (exists_found h _ _ _ _ L). simpl.
      unfold bind. rewrite (is_dir_found h _ _ _ _ L). reflexivity.
    + injection Ht as <-.
      unfold bind at 1. rewrite (exists_found h _ _ _ _ L). simpl.
      unfold bind. rewrite (is_dir_found h _ _ _ _ L). reflexivity.
Qed.

Lemma scr_list_directory_not_a_directory_witness :
  fst (ScrToolServer.list_directory (LexicalHost.host "/") (demo_server 100)
         (Some "/workspace/notes.txt") demo_world)
  = Ok [("success", VBool false); ("error", VStr "Not a directory");
        ("files", VList [])].
Proof.
  destruct (scr_list_directory_not_a_directory (LexicalHost.host "/")
              (demo_server 100) (Some "/workspace/notes.txt") demo_world
              (pathlib.Path "/workspace/notes.txt") eq_refl) as [_ H].
  rewrite (H "/workspace/notes.txt" "hello" (LexicalHost.file_stat 5) eq_refl).
  reflexivity.
Defined.

(** ** Writing and reading back *)

#[local] Instance same_files_but_preorder k : PreOrder (same_files_but k).
Proof.
  split.
  - intros f k' c st _. reflexivity.
  - intros f g i Hfg Hgi k' c st Hne.
    rewrite (Hfg k' c st Hne). apply Hgi. exact Hne.
Qed.

#[local] Instance only_file_touched_preorder k :
  PreOrder (only_file_touched k).
Proof.
  split.
  - intros w. split; reflexivity.
  - intros w1 w2 w3 [H1 E1] [H2 E2]. split.
    + etransitivity; eassumption.
    + congruence.
Qed.

Lemma keeps_weaken (R R' : World -> World -> Prop) {A} (c : M A) :
  (forall w w', R w w' -> R' w w') -> keeps R c -> keeps R' c.
Proof. intros HR Hc w. apply HR, Hc. Qed.

Lemma only_dirs_made_file_touched k w w' :
  only_dirs_made w w' -> only_file_touched k w w'.
Proof.
  intros [Hf Hr]. split; [|exact Hr]. intros k' c st _. apply Hf.
Qed.

Section WritingFrame.
Context (h : Host).

Lemma locate_realpath files p k :
  realpath h (pathlib.str p) = Ok k ->
  match locate h files p with
  | Broken _ => False
  | Denied k' | Missing k' | Found k' _ => k' = k
  end.
Proof.
  intros Hr. unfold locate. rewrite Hr.
  destruct (denied h k); [reflexivity|].
  destruct (files !! k); reflexivity.
Qed.

Lemma same_files_but_insert_file files k c st :
  same_files_but k files (<[k := File c st]> files).
Proof.
  intros k' c' st' Hne. rewrite lookup_insert_ne by congruence. reflexivity.
Qed.

Lemma same_files_but_new_file files k d names names' st c st' :
  files !! d = Some (Dir names st) ->
  same_files_but k files (<[k := File c st']> (<[d := Dir names' st]> files)).
Proof.
  intros Hd k' c' s' Hne. rewrite lookup_insert_ne by congruence.
  destruct (decide (d = k')) as [<-|Hdk].
  - rewrite lookup_insert_eq, Hd. split; discriminate.
  - rewrite lookup_insert_ne by exact Hdk. reflexivity.
Qed.

Lemma open_w_touches p k :
  realpath h (pathlib.str p) = Ok k ->
  keeps (only_file_touched k) (open_w h p).
Proof.
  intros Hr w. unfold open_w, bind, get_fs.
  pose proof (locate_realpath (fs w) p k Hr) as Hk.
  destruct (locate h (fs w) p) as [e|k'|k'|k' [c st|ns st]] eqn:L; simpl;
    try reflexivity; subst k'.
  - destruct (holder h (fs w) p k) as [[[d names] st]|e] eqn:Hh; simpl;
      [|reflexivity].
    split; [|reflexivity]. simpl.
    eapply same_files_but_new_file. eapply holder_dir. exact Hh.
  - split; [|reflexivity]. simpl. apply same_files_but_insert_file.
Qed.

Lemma write_at_touches k bytes : keeps (only_file_touched k) (write_at k bytes).
Proof.
  intros w. unfold write_at, bind, get_fs.
  destruct (fs w !! k) as [[c st|ns st]|]; simpl; try reflexivity.
  split; [|reflexivity]. simpl. apply same_files_but_insert_file.
Qed.

Lemma write_text_touches p k data encoding :
  realpath h (pathlib.str p) = Ok k ->
  keeps (only_file_touched k) (Path_write_text h p data encoding).
Proof.
  intros Hr w. unfold Path_write_text. unfold bind at 1.
  pose proof (open_w_touches p k Hr w) as Ho.
  destruct (open_w h p w) as [[k0|e] w1] eqn:E; simpl in *; [|exact Ho].
  apply open_w_file in E as (Hr0 & _). rewrite Hr in Hr0.
  injection Hr0 as <-.
  unfold bind, lift. destruct (encode h encoding data) as [bytes|e]; simpl;
    [|exact Ho].
  etransitivity; [exact Ho | apply write_at_touches].
Qed.

Lemma write_bytes_touches p k data :
  realpath h (pathlib.str p) = Ok k ->
  keeps (only_file_touched k) (Path_write_bytes h p data).
Proof.
  intros Hr w. unfold Path_write_bytes. unfold bind at 1.
  pose proof (open_w_touches p k Hr w) as Ho.
  destruct (open_w h p w) as [[k0|e] w1] eqn:E; simpl in *; [|exact Ho].
  apply open_w_file in E as (Hr0 & _). rewrite Hr in Hr0.
  injection Hr0 as <-.
  etransitivity; [exact Ho | apply write_at_touches].
Qed.

(** What a written text leaves behind: the encoded bytes, with their
    length as the size of the file. *)
Lemma write_text_stored p data encoding w w1 :
  Path_write_text h p data encoding w = (Ok tt, w1) ->
  exists k bytes mode mtime,
    encode h encoding data = Ok bytes /\
    locate h (fs w1) p
    = Found k (File bytes (MkStat mode (builtins.len bytes) mtime)).
Proof.
  unfold Path_write_text. unfold bind at 1.
  destruct (open_w h p w) as [[k|e] w2] eqn:Ho; [|discriminate].
  apply open_w_file in Ho as (Hr & Hd & c & st & Hf).
  unfold bind, lift. destruct (encode h encoding data) as [bytes|e];
    [|discriminate].
  unfold write_at, bind, get_fs. rewrite Hf. simpl. intros [= <-].
  exists k, bytes, (st_mode st), (st_mtime st). split; [reflexivity|].
  unfold locate. rewrite Hr, Hd. simpl. rewrite lookup_insert_eq.
  reflexivity.
Qed.

End WritingFrame.

(** [write_file] of the rich server touches the target only: whatever the
    outcome, no regular file at another canonical path is made, changed or
    removed and no process is run; when the path cannot be canonicalised the
    world stays as it is. *)
Theorem scr_write_file_touches_target_only (h : Host)
    (ts : ScrToolServer.ToolServer) (path : string)
    (content : ScrToolServer.content_arg) (encoding : string) (w : World) :
  let w' := snd (ScrToolServer.write_file h ts path content encoding w) in
  match realpath h (pathlib.str (pathlib.Path path)) with
  | Ok k => only_file_touched k w w'
  | Raise _ => w' = w
  end.
Proof.
  cbv zeta. destruct (realpath h _) as [k|e] eqn:Hr.
  - revert w.
    change (keeps (only_file_touched k)
              (ScrToolServer.write_file h ts path content encoding)).
    unfold ScrToolServer.write_file.
    apply keeps_try; [apply _ | | intros e; apply keeps_ret; apply _].
    destruct (ScrToolServer.is_safe_path h ts path) as [[|] message]; simpl;
      [|apply keeps_ret; apply _].
    apply keeps_bind; [apply _ | | intros _].
    { eapply keeps_weaken; [apply only_dirs_made_file_touched|].
      apply Path_mkdir_parents_only_dirs. }
    destruct (_ >? _); [apply keeps_ret; apply _|].
    apply keeps_bind; [apply _ | | intros _].
    { destruct content; [apply write_text_touches | apply write_bytes_touches];
        exact Hr. }
    apply keeps_bind; [apply _ | | intros there; apply keeps_ret; apply _].
    apply keeps_eq_weaken; [apply _ | apply Path_exists_reads].
  - unfold ScrToolServer.write_file, try_except, ScrToolServer.is_safe_path.
    rewrite Hr. reflexivity.
Qed.

(** A successful [write_file] of a text passed the guard and ended with the
    write of the text. *)
Lemma scr_write_file_success (h : Host) (ts : ScrToolServer.ToolServer)
    (path s encoding : string) (w w' : World) (d : dict) :
  ScrToolServer.write_file h ts path (ScrToolServer.Text s) encoding w
  = (Ok d, w') ->
  dict_get "success" d = Some (VBool true) ->
  fst (ScrToolServer.is_safe_path h ts path) = true /\
  exists w0, Path_write_text h (pathlib.Path path) s encoding w0 = (Ok tt, w').
Proof.
  unfold ScrToolServer.write_file, try_except.
  destruct (ScrToolServer.is_safe_path h ts path) as [[|] message]; simpl.
  - unfold bind at 1.
    destruct (Path_mkdir_parents h _ w) as [[[]|e] w1]; simpl;
      [|intros [= <- <-]; discriminate].
    destruct (_ >? _); simpl; [intros [= <- <-]; discriminate|].
    unfold bind at 1.
    destruct (Path_write_text h _ s encoding w1) as [[[]|e] w2] eqn:Hw;
      simpl; [|intros [= <- <-]; discriminate].
    unfold bind. rewrite (write_text_exists _ _ _ _ _ _ Hw). simpl.
    intros [= <- <-] _. split; [reflexivity|]. exists w1. exact Hw.
  - intros [= <- <-]. discriminate.
Qed.




(** The limit of [write_file] counts characters and the limit of [read_file]
    counts bytes: a text that was written with success and whose encoding is
    longer than [max_file_size] cannot be read back, [read_file] answers
    ["File too large"]. *)
Theorem scr_written_text_too_large_to_read (h : Host)
    (ts : ScrToolServer.ToolServer)
    (path s encoding bytes : string) (w w' : World) (d : dict) :
  ScrToolServer.write_file h ts path (ScrToolServer.Text s) encoding w
  = (Ok d, w') ->
  dict_get "success" d = Some (VBool true) ->
  encode h encoding s = Ok bytes ->
  builtins.len bytes > ScrToolServer.max_file_size ts ->
  ScrToolServer.read_file h ts path encoding w'
  = (Ok [("success", VBool false);
         ("error", VStr ("File too large (" +:+
                         PyStr.str_of_Z (builtins.len bytes) +:+ " > " +:+
                         PyStr.str_of_Z (ScrToolServer.max_file_size ts)
                         +:+ ")"));
         ("content", VStr EmptyString)], w').
Proof.
  intros Hw Hs He Hgt.
  destruct (scr_write_file_success _ _ _ _ _ _ _ _ Hw Hs) as (Hsafe & w0 & Hwt).
  destruct (write_text_stored _ _ _ _ _ _ Hwt)
    as (k & bytes' & mode & mtime & He' & L).
  rewrite He in He'. injection He' as <-.
  exact (read_file_above_limit h ts path encoding k _ w' Hsafe L Hgt).
Qed.

Lemma scr_written_text_too_large_to_read_witness :
  let w' := snd (ScrToolServer.write_file wide_host (demo_server 4)
                   "/workspace/new.txt" (ScrToolServer.Text "abc") "utf-16"
                   demo_world) in
  fst (ScrToolServer.write_file wide_host (demo_server 4)
         "/workspace/new.txt" (ScrToolServer.Text "abc") "utf-16" demo_world)
  = Ok [("success", VBool true); ("path", VStr "/workspace/new.txt");
        ("size", VInt 3); ("created", VBool false)] /\
  fst (ScrToolServer.read_file wide_host (demo_server 4) "/workspace/new.txt"
         "utf-16" w')
  = Ok [("success", VBool false); ("error", VStr "File too large (6 > 4)");
        ("content", VStr EmptyString)].
Proof.
  intros w'.
  destruct (ScrToolServer.write_file wide_host (demo_server 4)
              "/workspace/new.txt" (ScrToolServer.Text "abc") "utf-16"
              demo_world) as [[d|e] w1] eqn:E; [|vm_compute in E; discriminate].
  subst w'. simpl.
  assert (Hd : d = [("success", VBool true);
                    ("path", VStr "/workspace/new.txt");
                    ("size", VInt 3); ("created", VBool false)])
    by (vm_compute in E; injection E as <- _; reflexivity).
  split; [rewrite Hd; reflexivity|].
  rewrite (scr_written_text_too_large_to_read wide_host (demo_server 4)
             "/workspace/new.txt" "abc" "utf-16" (widen "abc") demo_world w1 d
             E).
  - reflexivity.
  - rewrite Hd. reflexivity.
  - reflexivity.
  - vm_compute. reflexivity.
Defined.

(** ** Making a directory *)

Section MkdirResult.
Context (h : Host).

Lemma os_mkdir_raises p w e w' :
  os_mkdir h p w = (Raise e, w') -> w' = w.
Proof.
  unfold os_mkdir, bind, get_fs.
  destruct (locate h (fs w) p) as [e0|k|k|k n]; simpl;
    try (intros [= _ <-]; reflexivity).
  destruct (holder h (fs w) p k) as [[[d names] st]|e0]; simpl;
    [discriminate | intros [= _ <-]; reflexivity].
Qed.

Lemma os_mkdir_made p w w' :
  os_mkdir h p w = (Ok tt, w') -> is_directory h w' p.
Proof.
  unfold os_mkdir, bind, get_fs.
  destruct (locate h (fs w) p) as [e0|k|k|k n] eqn:L; simpl; try discriminate.
  destruct (holder h (fs w) p k) as [[[d names] st]|e0]; simpl;
    [|discriminate].
  intros [= <-]. exists k, [], (fresh_stat h true k). simpl.
  unfold locate in L |- *. destruct (realpath h _) as [k0|]; [|discriminate].
  destruct (denied h k0) eqn:D; [discriminate|].
  destruct (fs w !! k0); [discriminate|]. injection L as ->.
  rewrite lookup_insert_eq. reflexivity.
Qed.

Lemma is_dir_true p w w' :
  Path_is_dir h p w = (Ok true, w') -> w' = w /\ is_directory h w p.
Proof.
  unfold Path_is_dir, bind, get_fs.
  destruct (locate h (fs w) p) as [e0|k|k|k [c st|ns st]] eqn:L; simpl;
    try discriminate.
  intros [= <-]. split; [reflexivity|]. exists k, ns, st. exact L.
Qed.

(** The handler of [mkdir] for a directory that is there already. *)
Lemma mkdir_handler_dir p e w w' :
  (d <- Path_is_dir h p ;; if d then ret tt else raise e)%py w = (Ok tt, w') ->
  w' = w /\ is_directory h w p.
Proof.
  unfold bind. destruct (Path_is_dir h p w) as [[[|]|e0] w1] eqn:E; simpl;
    try discriminate.
  intros [= <-]. apply is_dir_true in E as [-> Hd]. auto.
Qed.

Lemma mkdir_exist_ok_made p w w' :
  Path_mkdir_exist_ok h p w = (Ok tt, w') -> is_directory h w' p.
Proof.
  unfold Path_mkdir_exist_ok, try_except.
  destruct (os_mkdir h p w) as [[[]|e] w1] eqn:E.
  - intros [= <-]. eapply os_mkdir_made. exact E.
  - apply os_mkdir_raises in E. subst w1.
    destruct (is_OSError e); [|discriminate].
    destruct (is_FileNotFoundError e); [discriminate|].
    intros H. apply mkdir_handler_dir in H as [-> Hd]. exact Hd.
Qed.

Lemma mkdir_parents_made r rparts w w' :
  mkdir_parents h r rparts w = (Ok tt, w') ->
  is_directory h w' (pathlib.MkPath r (rev rparts)).
Proof.
  destruct rparts as [|c rparts]; simpl; unfold try_except.
  - destruct (os_mkdir h _ w) as [[[]|e] w1] eqn:E.
    + intros [= <-]. eapply os_mkdir_made. exact E.
    + apply os_mkdir_raises in E. subst w1.
      destruct (is_OSError e); [|discriminate].
      destruct (is_FileNotFoundError e); [discriminate|].
      intros H. apply mkdir_handler_dir in H as [-> Hd]. exact Hd.
  - destruct (os_mkdir h _ w) as [[[]|e] w1] eqn:E.
    + intros [= <-]. eapply os_mkdir_made. exact E.
    + apply os_mkdir_raises in E. subst w1.
      destruct (is_OSError e); [|discriminate].
      destruct (is_FileNotFoundError e).
      * unfold bind at 1.
        destruct (mkdir_parents h r rparts w) as [[[]|e0] w2]; [|discriminate].
        apply mkdir_exist_ok_made.
      * intros H. apply mkdir_handler_dir in H as [-> Hd]. exact Hd.
Qed.

Lemma Path_mkdir_parents_made p w w' :
  Path_mkdir_parents h p w = (Ok tt, w') -> is_directory h w' p.
Proof.
  unfold Path_mkdir_parents. intros H. apply mkdir_parents_made in H.
  rewrite rev_involutive in H. destruct p. exact H.
Qed.

(** Making a directory that is there already changes nothing. *)
Lemma Path_mkdir_parents_existing p w :
  is_directory h w p -> Path_mkdir_parents h p w = (Ok tt, w).
Proof.
  intros (k & names & st & L).
  assert (Hos : os_mkdir h p w = (Raise (EEXIST p), w)).
  { unfold os_mkdir, bind, get_fs. rewrite L. reflexivity. }
  assert (Hd : Path_is_dir h p w = (Ok true, w)).
  { unfold Path_is_dir, bind, get_fs. rewrite L. reflexivity. }
  unfold Path_mkdir_parents.
  assert (Hp : pathlib.MkPath (pathlib.root p) (rev (rev (pathlib.parts p))) = p)
    by (rewrite rev_involutive; destruct p; reflexivity).
  destruct (rev (pathlib.parts p)) as [|c rparts] eqn:Er; simpl in *;
    unfold try_except; rewrite Hp, Hos; simpl; unfold bind; rewrite Hd;
    reflexivity.
Qed.

End MkdirResult.

(** [create_directory] never touches a regular file and runs no process,
    whatever its outcome. *)
Theorem scr_create_directory_only_dirs (h : Host)
    (ts : ScrToolServer.ToolServer) (path : string) (w : World) :
  only_dirs_made w (snd (ScrFileOps.create_directory h ts path w)).
Proof.
  revert w. change (keeps only_dirs_made (ScrFileOps.create_directory h ts path)).
  unfold ScrFileOps.create_directory.
  apply keeps_try; [apply _ | | intros e; apply keeps_ret; apply _].
  destruct (ScrToolServer.is_safe_path h ts path) as [[|] message]; simpl;
    [|apply keeps_ret; apply _].
  apply keeps_bind; [apply _ | apply Path_mkdir_parents_only_dirs | intros _].
  apply keeps_ret; apply _.
Qed.

(** After a successful [create_directory] the path is a directory; the
    [created] flag is true also when the directory was there before, and a
    second call gives the same result and changes nothing. *)
Theorem scr_create_directory_made (h : Host) (ts : ScrToolServer.ToolServer)
    (path : string) (w w' : World) (d : dict) :
  ScrFileOps.create_directory h ts path w = (Ok d, w') ->
  dict_get "success" d = Some (VBool true) ->
  is_directory h w' (pathlib.Path path) /\
  dict_get "created" d = Some (VBool true) /\
  ScrFileOps.create_directory h ts path w' = (Ok d, w').
Proof.
  unfold ScrFileOps.create_directory, try_except.
  destruct (ScrToolServer.is_safe_path h ts path) as [[|] message]; simpl.
  - unfold bind.
    destruct (Path_mkdir_parents h _ w) as [[[]|e] w1] eqn:E; simpl;
      [|intros [= <- <-]; discriminate].
    intros [= <- <-] _. apply Path_mkdir_parents_made in E.
    split; [exact E|]. split; [reflexivity|].
    rewrite (Path_mkdir_parents_existing h _ _ E). reflexivity.
  - intros [= <- <-]. discriminate.
Qed.

Lemma scr_create_directory_made_witness :
  let h := LexicalHost.host "/" in
  let r := ScrFileOps.create_directory h (demo_server 100) "/workspace/sub"
             demo_world in
  fst r = Ok [("success", VBool true); ("path", VStr "/workspace/sub");
              ("created", VBool true);
              ("message", VStr "Directory created: /workspace/sub")] /\
  is_directory h demo_world (pathlib.Path "/workspace/sub") /\
  is_directory h (snd r) (pathlib.Path "/workspace/sub").
Proof.
  intros h r.
  destruct (ScrFileOps.create_directory h (demo_server 100) "/workspace/sub"
              demo_world) as [[d|e] w1] eqn:E; [|vm_compute in E; discriminate].
  subst r. simpl.
  assert (Hd : d = [("success", VBool true); ("path", VStr "/workspace/sub");
                    ("created", VBool true);
                    ("message", VStr "Directory created: /workspace/sub")])
    by (vm_compute in E; injection E as <- _; reflexivity).
  split; [rewrite Hd; reflexivity|]. split.
  - exists "/workspace/sub", ["inner.txt"], LexicalHost.dir_stat. reflexivity.
  - apply (scr_create_directory_made h (demo_server 100) "/workspace/sub"
             demo_world w1 d E). rewrite Hd. reflexivity.
Defined.

(** When [__init__] returns, the workspace is a directory; no regular file
    was touched on the way. *)
Theorem scr_init_makes_workspace (h : Host) (workspace : string)
    (allowed : option (list string)) (timeout : Z) (w w' : World)
    (ts : ScrToolServer.ToolServer) :
  ScrToolServer.init h workspace allowed timeout w = (Ok ts, w') ->
  ts = ScrToolServer.new workspace allowed timeout /\
  is_directory h w' (ScrToolServer.workspace_dir ts) /\
  only_dirs_made w w'.
Proof.
  unfold ScrToolServer.init, bind.
  pose proof (Path_mkdir_parents_only_dirs h
                (ScrToolServer.workspace_dir
                   (ScrToolServer.new workspace allowed timeout)) w) as Hk.
  destruct (Path_mkdir_parents h _ w) as [[[]|e] w1] eqn:E; [|discriminate].
  intros [= <- <-]. split; [reflexivity|]. split; [|exact Hk].
  eapply Path_mkdir_parents_made. exact E.
Qed.

Lemma scr_init_makes_workspace_witness :
  let h := LexicalHost.host "/" in
  let w := LexicalHost.world [("/", Dir [] LexicalHost.dir_stat)] in
  is_directory h (snd (ScrToolServer.init h "/data/workspace" None 30 w))
    (pathlib.Path "/data/workspace").
Proof.
  intros h w.
  destruct (ScrToolServer.init h "/data/workspace" None 30 w)
    as [[ts|e] w1] eqn:E; [|vm_compute in E; discriminate].
  destruct (scr_init_makes_workspace h "/data/workspace" None 30 w w1 ts E)
    as (-> & Hd & _).
  exact Hd.
Defined.

(** ** Deleting *)

Lemma path_eqb_refl (p : pathlib.PurePath) : ScrFileOps.path_eqb p p = true.
Proof.
  unfold ScrFileOps.path_eqb. rewrite String.eqb_refl.
  rewrite bool_decide_eq_true_2; reflexivity.
Qed.

Section Deleting.
Context (h : Host) (islink : pathlib.PurePath -> bool)
  (unlink_link : pathlib.PurePath -> M unit).

Lemma exists_cases p w :
  (exists k n, locate h (fs w) p = Found k n /\
               Path_exists h p w = (Ok true, w)) \/
  Path_exists h p w = (Ok false, w) \/
  exists e, Path_exists h p w = (Raise e, w).
Proof.
  unfold Path_exists, bind, get_fs.
  destruct (locate h (fs w) p) as [e|k|k|k n] eqn:L; eauto 6.
Qed.

Lemma unlink_file p k c st names st' w :
  islink p = false ->
  locate h (fs w) p = Found k (File c st) ->
  fs w !! dirname k = Some (Dir names st') ->
  denied h (dirname k) = false ->
  Path_unlink h islink unlink_link p w
  = (Ok tt, MkWorld (delete k (<[dirname k :=
                       Dir (remove_name (basename k) names) st']> (fs w)))
              (run_calls w) (ticks w)).
Proof.
  intros Hl L Hd Hden. unfold Path_unlink. rewrite Hl.
  unfold bind, get_fs. rewrite L.
  unfold holder. rewrite Hd, Hden. reflexivity.
Qed.

Lemma rmdir_not_empty p k n names st w :
  locate h (fs w) p = Found k (Dir (n :: names) st) ->
  exists e, Path_rmdir h islink p w = (Raise e, w).
Proof.
  intros L. unfold Path_rmdir. destruct (islink p); [eexists; reflexivity|].
  unfold bind, get_fs. rewrite L. eexists. reflexivity.
Qed.

End Deleting.

(** The workspace root is never deleted: for a path with the canonical form
    of the workspace directory, [delete_path] returns [success] false and
    changes nothing, with or without [recursive]. *)
Theorem scr_delete_path_keeps_root (h : Host)
    (rmtree : pathlib.PurePath -> M unit)
    (islink : pathlib.PurePath -> bool)
    (unlink_link : pathlib.PurePath -> M unit)
    (ts : ScrToolServer.ToolServer) (path k : string) (recursive : bool)
    (w : World) :
  realpath h (pathlib.str (pathlib.Path path)) = Ok k ->
  realpath h (pathlib.str (ScrToolServer.workspace_dir ts)) = Ok k ->
  exists message,
    ScrFileOps.delete_path h rmtree islink unlink_link ts path recursive w
    = (Ok [("success", VBool false); ("error", VStr message)], w).
Proof.
  intros Hp Hw. unfold ScrFileOps.delete_path, try_except.
  destruct (ScrToolServer.is_safe_path h ts path) as [[|] message]; simpl;
    [|eauto].
  unfold bind at 1.
  destruct (exists_cases h (pathlib.Path path) w)
    as [(k' & n & L & E)|[E|[e E]]]; rewrite E; simpl; eauto.
  unfold bind, Path_resolve. rewrite Hp, Hw. simpl.
  rewrite path_eqb_refl. eauto.
Qed.

Lemma scr_delete_path_keeps_root_witness :
  ScrFileOps.delete_path (LexicalHost.host "/") no_rmtree no_links
    no_unlink_link (demo_server 100) "/workspace/sub/.." true demo_world
  = (Ok [("success", VBool false);
         ("error", VStr "Cannot delete workspace root")], demo_world).
Proof.
  destruct (scr_delete_path_keeps_root (LexicalHost.host "/") no_rmtree
              no_links no_unlink_link (demo_server 100) "/workspace/sub/.." "/workspace" true
              demo_world eq_refl eq_refl) as [message H].
  rewrite H. vm_compute in H. injection H as <-. reflexivity.
Defined.

(** Without [recursive], a directory that is not empty is not deleted:
    [delete_path] returns [success] false and changes nothing. *)
Theorem scr_delete_path_not_empty (h : Host)
    (rmtree : pathlib.PurePath -> M unit)
    (islink : pathlib.PurePath -> bool)
    (unlink_link : pathlib.PurePath -> M unit)
    (ts : ScrToolServer.ToolServer) (path k n : string)
    (names : list string) (st : stat_result) (w : World) :
  locate h (fs w) (pathlib.Path path) = Found k (Dir (n :: names) st) ->
  exists message,
    ScrFileOps.delete_path h rmtree islink unlink_link ts path false w
    = (Ok [("success", VBool false); ("error", VStr message)], w).
Proof.
  intros L. unfold ScrFileOps.delete_path, try_except.
  destruct (ScrToolServer.is_safe_path h ts path) as [[|] message]; simpl;
    [|eauto].
  unfold bind at 1. rewrite (exists_found h _ _ _ _ L). simpl.
  unfold bind at 1, Path_resolve at 1.
  destruct (locate_found h _ _ _ _ L) as (Hr & _). rewrite Hr. simpl.
  unfold bind at 1, Path_resolve.
  destruct (realpath h (pathlib.str (ScrToolServer.workspace_dir ts)))
    as [kw|e]; simpl; [|eauto].
  destruct (ScrFileOps.path_eqb _ _); [eauto|].
  unfold bind at 1. rewrite (is_dir_found h _ _ _ _ L). simpl.
  unfold bind.
  destruct (rmdir_not_empty h islink _ _ _ _ _ _ L) as [e He].
  rewrite He. simpl. eauto.
Qed.

Lemma scr_delete_path_not_empty_witness :
  ScrFileOps.delete_path (LexicalHost.host "/") no_rmtree no_links
    no_unlink_link (demo_server 100) "/workspace/sub" false demo_world
  = (Ok [("success", VBool false);
         ("error",
          VStr "[Errno 39] Directory not empty: '/workspace/sub'")],
     demo_world).
Proof.
  destruct (scr_delete_path_not_empty (LexicalHost.host "/") no_rmtree
              no_links no_unlink_link (demo_server 100) "/workspace/sub" "/workspace/sub" "inner.txt"
              [] LexicalHost.dir_stat demo_world eq_refl) as [message H].
  rewrite H. vm_compute in H. injection H as <-. reflexivity.
Defined.

(** Deleting a regular file: when the path passes the guard, is no symbolic
    link and not the workspace root and lies in a directory the system lets
    the server change, [delete_path] succeeds, the file is gone, every other
    regular file is as before and no process was run. *)
Theorem scr_delete_path_file (h : Host)
    (rmtree : pathlib.PurePath -> M unit)
    (islink : pathlib.PurePath -> bool)
    (unlink_link : pathlib.PurePath -> M unit)
    (ts : ScrToolServer.ToolServer) (path k kw c : string)
    (st st' : stat_result) (names : list string) (recursive : bool)
    (w : World) :
  fst (ScrToolServer.is_safe_path h ts path) = true ->
  islink (pathlib.Path path) = false ->
  locate h (fs w) (pathlib.Path path) = Found k (File c st) ->
  fs w !! dirname k = Some (Dir names st') ->
  denied h (dirname k) = false ->
  realpath h (pathlib.str (ScrToolServer.workspace_dir ts)) = Ok kw ->
  ScrFileOps.path_eqb (pathlib.Path k) (pathlib.Path kw) = false ->
  exists w',
    ScrFileOps.delete_path h rmtree islink unlink_link ts path recursive w
    = (Ok [("success", VBool true);
           ("path", VStr (pathlib.str (pathlib.Path path)));
           ("deleted", VBool true);
           ("message", VStr ("Deleted: " +:+ path))], w') /\
    fs w' !! k = None /\
    only_file_touched k w w'.
Proof.
  intros Hs Hl L Hd Hden Hw Hne.
  exists (MkWorld (delete k (<[dirname k :=
                     Dir (remove_name (basename k) names) st']> (fs w)))
            (run_calls w) (ticks w)).
  split; [|split].
  - unfold ScrFileOps.delete_path, try_except.
    destruct (ScrToolServer.is_safe_path h ts path) as [safe m].
    simpl in Hs. subst safe. simpl.
    unfold bind at 1. rewrite (exists_found h _ _ _ _ L). simpl.
    unfold bind at 1, Path_resolve at 1.
    destruct (locate_found h _ _ _ _ L) as (Hr & _). rewrite Hr. simpl.
    unfold bind at 1, Path_resolve. rewrite Hw. simpl. rewrite Hne.
    unfold bind at 1. rewrite (is_dir_found h _ _ _ _ L).
    cbn [node_is_dir]. cbv iota beta.
    unfold bind.
    rewrite (unlink_file h islink unlink_link _ _ _ _ _ _ _ Hl L Hd Hden).
    reflexivity.
  - simpl. apply lookup_delete_eq.
  - split; [|reflexivity]. simpl. intros k' c' s' Hk'.
    rewrite lookup_delete_ne by congruence.
    destruct (decide (dirname k = k')) as [<-|Hdk].
    + rewrite lookup_insert_eq, Hd. split; discriminate.
    + rewrite lookup_insert_ne by exact Hdk. reflexivity.
Qed.

Lemma scr_delete_path_file_witness :
  let r := ScrFileOps.delete_path (LexicalHost.host "/") no_rmtree no_links
             no_unlink_link (demo_server 100) "/workspace/notes.txt" false
             demo_world in
  fst r = Ok [("success", VBool true); ("path", VStr "/workspace/notes.txt");
              ("deleted", VBool true);
              ("message", VStr "Deleted: /workspace/notes.txt")] /\
  fs (snd r) !! "/workspace/notes.txt" = None /\
  fs (snd r) !! "/workspace/big.txt"
  = Some (File "too long" (LexicalHost.file_stat 8)).
Proof.
  intros r.
  destruct (scr_delete_path_file (LexicalHost.host "/") no_rmtree no_links
              no_unlink_link (demo_server 100) "/workspace/notes.txt" "/workspace/notes.txt"
              "/workspace" "hello" (LexicalHost.file_stat 5)
              LexicalHost.dir_stat ["notes.txt"; "big.txt"; "sub"] false
              demo_world eq_refl eq_refl eq_refl eq_refl eq_refl eq_refl
              eq_refl)
    as (w' & Hrun & Hgone & Hframe & _).
  subst r. rewrite Hrun. simpl. split; [reflexivity|]. split; [exact Hgone|].
  apply Hframe; [discriminate | reflexivity].
Defined.

(** ** Searching *)

Section Searching.
Context (h : Host).

Lemma result_of_reads ts item : keeps eq (ScrFileOps.result_of h ts item).
Proof.
  unfold ScrFileOps.result_of.
  apply keeps_bind; [apply _ | apply Path_is_file_reads | intros f].
  destruct f; [|apply keeps_ret; apply _].
  apply keeps_bind; [apply _ | apply Path_stat_reads | intros st].
  apply keeps_bind; [apply _ | apply keeps_lift; apply _ | intros rel].
  apply keeps_ret; apply _.
Qed.

Lemma collect_results_kept ts items w :
  ScrFileOps.collect_results h ts items w
  = (Ok (kept_results h ts w items), w).
Proof.
  induction items as [|item rest IH]; [reflexivity|].
  simpl. unfold bind at 1, try_except.
  unfold kept_results. simpl. unfold result_outcome at 1.
  pose proof (result_of_reads ts item w) as Hw.
  destruct (ScrFileOps.result_of h ts item w) as [[[e|]|e] w1];
    simpl in *; subst w1; unfold bind; rewrite IH; reflexivity.
Qed.

End Searching.

(** For a directory to search that passes the path guard and exists:
    when the pattern matching yields its matches, [search_files] succeeds,
    its results are the dictionaries of the matches that are regular files
    (others are left out), in the order of their paths relative to the
    workspace by code points, and [count] is their number; when the pattern
    matching raises (as [glob] does for an empty or an absolute pattern),
    [search_files] returns [success] false with the text of the exception
    and no results. *)
Theorem scr_search_files_sorted (h : Host)
    (glob : bool -> pathlib.PurePath -> string -> M (list pathlib.PurePath))
    (ts : ScrToolServer.ToolServer) (pattern : string)
    (directory : option string) (recursive : bool) (w : World)
    (target : pathlib.PurePath) (k : string) (n : node) :
  search_target h ts directory = Some target ->
  locate h (fs w) target = Found k n ->
  (forall items,
     glob recursive target pattern w = (Ok items, w) ->
     exists results,
       ScrFileOps.search_files h glob ts pattern directory recursive w
       = (Ok [("success", VBool true);
              ("pattern", VStr pattern);
              ("directory", VStr (pathlib.str target));
              ("recursive", VBool recursive);
              ("results", VList (List.map VDict results));
              ("count", VInt (Z.of_nat (List.length results)))], w) /\
       Permutation (kept_results h ts w items) results /\
       forall (i j : nat) (a b : dict),
         (i < j)%nat -> results !! i = Some a -> results !! j = Some b ->
         String.leb (ScrFileOps.result_path a) (ScrFileOps.result_path b)
         = true) /\
  (forall e w1,
     glob recursive target pattern w = (Raise e, w1) ->
     ScrFileOps.search_files h glob ts pattern directory recursive w
     = (Ok [("success", VBool false); ("error", VStr (exn_msg e));
            ("results", VList [])], w1)).
Proof.
  intros Ht L.
  assert (Hrun : forall r w1,
            glob recursive target pattern w = (r, w1) ->
            ScrFileOps.search_files h glob ts pattern directory recursive w
            = match r with
              | Ok items =>
                  try_except
                    (results <- ScrFileOps.collect_results h ts items ;;
                     ret [("success", VBool true);
                          ("pattern", VStr pattern);
                          ("directory", VStr (pathlib.str target));
                          ("recursive", VBool recursive);
                          ("results",
                           VList (List.map VDict
                                    (builtins.sorted ScrFileOps.path_le
                                       results)));
                          ("count", VInt (Z.of_nat (List.length results)))])
                    any_exception
                    (fun e =>
                       ret [("success", VBool false);
                            ("error", VStr (exn_msg e));
                            ("results", VList [])]) w1
              | Raise e =>
                  (Ok [("success", VBool false); ("error", VStr (exn_msg e));
                       ("results", VList [])], w1)
              end).
  { intros r w1 Hg. unfold ScrFileOps.search_files, try_except.
    unfold search_target in Ht.
    destruct (builtins.truthy directory) as [p|].
    - destruct (ScrToolServer.is_safe_path h ts p) as [[|] message];
        simpl in Ht; [|discriminate]. injection Ht as <-. simpl.
      unfold bind at 1. rewrite (exists_found h _ _ _ _ L). simpl.
      unfold bind at 1. rewrite Hg. destruct r; reflexivity.
    - injection Ht as <-.
      unfold bind at 1. rewrite (exists_found h _ _ _ _ L). simpl.
      unfold bind at 1. rewrite Hg. destruct r; reflexivity. }
  split.
  - intros items Hg.
    exists (builtins.sorted ScrFileOps.path_le (kept_results h ts w items)).
    assert (Hperm : Permutation (kept_results h ts w items)
              (builtins.sorted ScrFileOps.path_le (kept_results h ts w items)))
      by apply sorted_perm.
    split; [|split; [exact Hperm|]].
    + pose proof (Permutation_length Hperm) as Hlen.
      rewrite (Hrun _ _ Hg). unfold try_except, bind.
      rewrite collect_results_kept. cbv iota beta.
      unfold dict in Hlen |- *. rewrite Hlen. reflexivity.
    + apply (StronglySorted_lookup
               (fun a b => ScrFileOps.path_le a b = true)).
      apply sorted_ordered.
      * intros a b. apply String.leb_total.
      * intros a b c. apply leb_trans.
  - intros e w1 Hg. exact (Hrun _ _ Hg).
Qed.

Lemma scr_search_files_sorted_witness :
  exists results,
    fst (ScrFileOps.search_files (LexicalHost.host "/")
           (entries_glob (LexicalHost.host "/")) (demo_server 100) "*" None
           false demo_world)
    = Ok [("success", VBool true); ("pattern", VStr "*");
          ("directory", VStr "/workspace"); ("recursive", VBool false);
          ("results", VList (List.map VDict results)); ("count", VInt 2)] /\
    List.map ScrFileOps.result_path results = ["big.txt"; "notes.txt"].
Proof.
  destruct (scr_search_files_sorted (LexicalHost.host "/")
              (entries_glob (LexicalHost.host "/")) (demo_server 100) "*" None
              false demo_world (pathlib.Path "/workspace") "/workspace"
              (Dir ["notes.txt"; "big.txt"; "sub"] LexicalHost.dir_stat)
              eq_refl eq_refl) as [Hfound _].
  destruct (Hfound [pathlib.Path "/workspace/notes.txt";
                    pathlib.Path "/workspace/big.txt";
                    pathlib.Path "/workspace/sub"] eq_refl)
    as (results & Hrun & _ & _).
  exists results. rewrite Hrun. simpl fst.
  vm_compute in Hrun. injection Hrun as Hres Hcount.
  destruct results as [|x [|y [|z results]]]; simpl in Hres, Hcount;
    try discriminate.
  injection Hres as Hx Hy. subst x y. split; reflexivity.
Defined.

(** ** [DockerAIAgent] *)

(** [execute_in_container] checks nothing: for every command it runs exactly
    one process, whose command line is the command as given or, with a
    container name that is not empty, the text [docker exec], the name and the
    command joined by blanks; it always returns a result. *)
Theorem execute_in_container_runs_anything (h : Host) (command : string)
    (container : option string) (w : World) :
  let r := DockerAIAgent.execute_in_container h command container w in
  (exists d, fst r = Ok d) /\
  run_calls (snd r)
  = run_calls w ++
    [MkRun (match builtins.truthy container with
            | Some c => "docker exec " +:+ c +:+ " " +:+ command
            | None => command
            end) EmptyString None 30].
Proof.
  cbv zeta. unfold DockerAIAgent.execute_in_container.
  destruct (builtins.truthy container) as [c|];
    unfold DockerAIAgent.execute_safe, try_except, bind, subprocess_run;
    destruct (run_process h _ (fs w)) as [[rc so se| |e] files]; simpl;
    try (destruct (is_TimeoutExpired e)); simpl; eauto.
Qed.

(** A command that the guard of the tool server rejects is run by
    [execute_safe]. *)
Example execute_safe_runs_rejected_command :
  SrcToolServer._is_safe_command (SrcToolServer.new "/workspace" None 30)
    "rm -rf /" = false /\
  run_calls (snd (DockerAIAgent.execute_safe (LexicalHost.host "/")
                    "rm -rf /" (LexicalHost.world [])))
  = [MkRun "rm -rf /" EmptyString None 30].
Proof. split; reflexivity. Qed.

(** ** The simple server: reading and writing *)

Section SrcReading.
Context (h : Host).

Lemma Path_resolve_reads p : keeps eq (Path_resolve h p).
Proof.
  unfold Path_resolve.
  destruct (realpath h _); [apply keeps_ret | apply keeps_raise]; apply _.
Qed.

Lemma src_entry_of_reads f : keeps eq (SrcToolServer.entry_of h f).
Proof.
  unfold SrcToolServer.entry_of.
  apply keeps_bind; [apply _ | apply Path_is_dir_reads | intros d].
  apply keeps_bind; [apply _ | apply Path_is_file_reads | intros i].
  apply keeps_bind; [apply _ | | intros size; apply keeps_ret; apply _].
  destruct i; [|apply keeps_ret; apply _].
  apply keeps_bind; [apply _ | apply Path_stat_reads | intros st].
  apply keeps_ret; apply _.
Qed.

Lemma src_entries_reads items : keeps eq (SrcToolServer.entries h items).
Proof.
  induction items as [|f rest IH]; simpl; [apply keeps_ret; apply _|].
  apply keeps_bind; [apply _ | apply src_entry_of_reads | intros e].
  apply keeps_bind; [apply _ | exact IH | intros files].
  apply keeps_ret; apply _.
Qed.

End SrcReading.

(** [read_file] of the simple server never changes the world, whether it
    returns a content, a listing or an error or raises. *)
Theorem src_read_file_reads_only (h : Host) (ts : SrcToolServer.ToolServer)
    (path : string) (w : World) :
  snd (SrcToolServer.read_file h ts path w) = w.
Proof.
  symmetry. revert w. change (keeps eq (SrcToolServer.read_file h ts path)).
  unfold SrcToolServer.read_file.
  apply keeps_bind; [apply _ | apply Path_resolve_reads | intros safe_path].
  destruct (PyStr.contains _ _); [apply keeps_ret; apply _|].
  apply keeps_bind; [apply _ | apply Path_exists_reads | intros there].
  destruct there; simpl; [|apply keeps_ret; apply _].
  apply keeps_bind; [apply _ | apply Path_is_dir_reads | intros d].
  destruct d.
  - apply keeps_bind; [apply _ | apply Path_iterdir_reads | intros items].
    apply keeps_bind; [apply _ | apply src_entries_reads | intros files].
    apply keeps_ret; apply _.
  - apply keeps_try; [apply _ | | intros e; apply keeps_ret; apply _].
    apply keeps_bind; [apply _ | apply Path_read_text_reads | intros c].
    apply keeps_ret; apply _.
Qed.

(** [write_file] of the simple server refuses a path whose canonical form
    does not begin with the canonical form of the workspace: it answers
    ["Can only write to workspace"] and changes nothing. *)
Theorem src_write_file_outside_rejected (h : Host)
    (ts : SrcToolServer.ToolServer) (path content k kw : string) (w : World) :
  realpath h (pathlib.str (pathlib.Path path)) = Ok k ->
  realpath h (pathlib.str (pathlib.Path (SrcToolServer.workspace_dir ts)))
  = Ok kw ->
  PyStr.startswith (pathlib.str (pathlib.Path k))
    (pathlib.str (pathlib.Path kw)) = false ->
  SrcToolServer.write_file h ts path content w
  = (Ok [("error", VStr "Can only write to workspace")], w).
Proof.
  intros Hk Hw Hs. unfold SrcToolServer.write_file, bind, Path_resolve.
  rewrite Hk. simpl. rewrite Hw. simpl. rewrite Hs. reflexivity.
Qed.

Lemma src_write_file_outside_rejected_witness :
  SrcToolServer.write_file (LexicalHost.host "/")
    (SrcToolServer.new "/workspace" None 30) "/workspace/../etc/passwd" "x"
    demo_world
  = (Ok [("error", VStr "Can only write to workspace")], demo_world).
Proof.
  apply (src_write_file_outside_rejected (LexicalHost.host "/")
           (SrcToolServer.new "/workspace" None 30) "/workspace/../etc/passwd"
           "x" "/etc/passwd" "/workspace" demo_world);
    reflexivity.
Defined.
